(** * CC2500 radio driver (lib/radio_cc2500.c): a shallow embedding

    The driver frames outbound packets, transmits them with a busy-wait
    handshake on the GDO0 signal line, and receives packets from the
    PORT2 interrupt handler, which drains the chip's receive FIFO and hands
    CRC-valid packets to a registered callback.

    Bytes and 8-bit registers are [Z] values, narrowed with [to_u8] where the
    C code stores a wider value into a [uint8_t].  A C array is a [region]:
    the bytes reachable from its base address by offset, together with the
    list of offsets the program stored to.  The radio chip and the port pins
    are inputs of the model (what a status query, a FIFO read or a pin sample
    answers) and every command sent to them is appended to a [trace]. *)

From Stdlib Require Import ZArith List Bool Lia PeanoNat.
Import ListNotations.
Local Open Scope Z_scope.

(** ** Machine integers *)

(** Conversion to [uint8_t]: the value modulo 2^8. *)
Definition to_u8 (x : Z) : Z := x mod 256.

(** ** Memory regions *)

(** The memory reachable through a [uint8_t*]: C checks no bound, so [data]
    is total in the offset.  [stores] lists, in program order, the offsets
    written through the pointer; an offset at or beyond the declared size of
    the array the pointer came from is a store past its end.  What such a
    store overwrites (the neighbouring object) is not modelled: that another
    object is left unchanged is stated only of runs that store nothing past
    the end of an array. *)
Record region := mkRegion {
  data : nat -> Z;
  stores : list nat
}.

(** [p[off] = v] *)
Definition store (off : nat) (v : Z) (r : region) : region :=
  {| data := fun i => if Nat.eqb i off then v else data r i;
     stores := stores r ++ [off] |}.

(** Consecutive stores [p[off] = b0; p[off+1] = b1; ...] *)
Fixpoint store_bytes (off : nat) (bs : list Z) (r : region) : region :=
  match bs with
  | [] => r
  | b :: bs' => store_bytes (S off) bs' (store off b r)
  end.

(** The [n] bytes [p[off] .. p[off+n-1]]. *)
Definition load_bytes (off n : nat) (r : region) : list Z :=
  map (fun i => data r (off + i)%nat) (seq 0 n).

(** [memcpy(&dst[off], src, n)] *)
Definition memcpy (dst : region) (off : nat) (src : region) (n : nat) : region :=
  store_bytes off (load_bytes 0 n src) dst.

(** An array initialised with the bytes of [l] (zero beyond them). *)
Definition region_of_list (l : list Z) : region :=
  {| data := fun i => nth i l 0; stores := [] |}.

(** A store at [off] into an array declared with [size] elements lands past
    its end. *)
Definition past_end (size off : nat) : bool := (size <=? off)%nat.

(** ** The chip interface (cc2500.h) *)

(** Chip registers named by the driver. *)
Inductive chip_register := FIFO | PATABLE | RXBYTES.

(** Command strobes named by the driver. *)
Inductive strobe_command := SRX | STX | SFRX.

(** The receive callback, a pointer to a function from a buffer and a
    length to a status byte.  The driver ignores what it returns. *)
Definition callback := region -> Z -> Z.

(** What the driver does to its environment, in program order. *)
Inductive event :=
| EvInitializeRadio
| EvDelayCycles (n : Z)
| EvWriteRfSettings
| EvStrobe (c : strobe_command)
| EvReadStatus (r : chip_register)
| EvReadBurst (r : chip_register) (count : nat)
| EvWriteBurst (r : chip_register) (bytes : list Z)
| EvStoreIE (v : Z)           (* GDO0_PxIE = v *)
| EvStoreIFG (v : Z)          (* GDO0_PxIFG = v *)
| EvLoadIN (v : Z)            (* GDO0_PxIN read as v *)
| EvCallback (f : callback) (buffer : region) (length : Z).

(** Constants of the board and chip headers, which are not part of this
    file: the size of the static buffers, the port bit of the GDO0 pin and
    the mask of the byte count in the RXBYTES status. *)
Class Board := {
  CC2500_BUFFER_LENGTH : Z;
  GDO0_PIN : Z;
  NUM_RXBYTES : Z
}.

(** Modelled from the spec: [LQI_POS] comes from cc2500.h, which is not part
    of this file; the spec places the CRC-valid bit in the second status
    byte. *)
Definition LQI_POS : nat := 1.

(** Modelled from the spec: [CRC_OK] comes from cc2500.h, which is not part
    of this file; the spec makes the CRC-valid bit the high bit of its
    status byte. *)
Definition CRC_OK : Z := 0x80.

(* Positions in the buffer of the various fields *)
Definition LENGTH_FIELD : nat := 0.
Definition ADDRESS_FIELD : nat := 1.
Definition DATA_FIELD : nat := 2.

(** ** Machine state *)

Record machine := mkMachine {
  GDO0_PxIE : Z;               (* port interrupt enable register *)
  GDO0_PxIFG : Z;              (* port interrupt flag register *)
  GDO0_PxIN : list Z;          (* what the next reads of the port input give *)
  rxbytes : Z;                 (* what a status query of RXBYTES answers *)
  rx_fifo : list Z;            (* bytes the chip holds in its receive FIFO *)
  tx_fifo : list Z;            (* bytes written to its transmit FIFO *)
  p_rx_buffer : region;        (* static uint8_t [CC2500_BUFFER_LENGTH] *)
  p_tx_buffer : region;        (* static uint8_t [CC2500_BUFFER_LENGTH] *)
  rx_callback : callback;
  trace : list event
}.

Definition log (es : list event) (s : machine) : machine :=
  mkMachine (GDO0_PxIE s) (GDO0_PxIFG s) (GDO0_PxIN s) (rxbytes s) (rx_fifo s)
            (tx_fifo s) (p_rx_buffer s) (p_tx_buffer s) (rx_callback s)
            (trace s ++ es).

Definition store_PxIE (v : Z) (s : machine) : machine :=
  mkMachine v (GDO0_PxIFG s) (GDO0_PxIN s) (rxbytes s) (rx_fifo s)
            (tx_fifo s) (p_rx_buffer s) (p_tx_buffer s) (rx_callback s)
            (trace s ++ [EvStoreIE v]).

Definition store_PxIFG (v : Z) (s : machine) : machine :=
  mkMachine (GDO0_PxIE s) v (GDO0_PxIN s) (rxbytes s) (rx_fifo s)
            (tx_fifo s) (p_rx_buffer s) (p_tx_buffer s) (rx_callback s)
            (trace s ++ [EvStoreIFG v]).

Definition set_PxIN (l : list Z) (s : machine) : machine :=
  mkMachine (GDO0_PxIE s) (GDO0_PxIFG s) l (rxbytes s) (rx_fifo s)
            (tx_fifo s) (p_rx_buffer s) (p_tx_buffer s) (rx_callback s)
            (trace s).

Definition set_rx (n : Z) (l : list Z) (s : machine) : machine :=
  mkMachine (GDO0_PxIE s) (GDO0_PxIFG s) (GDO0_PxIN s) n l
            (tx_fifo s) (p_rx_buffer s) (p_tx_buffer s) (rx_callback s)
            (trace s).

Definition set_tx_fifo (l : list Z) (s : machine) : machine :=
  mkMachine (GDO0_PxIE s) (GDO0_PxIFG s) (GDO0_PxIN s) (rxbytes s) (rx_fifo s)
            l (p_rx_buffer s) (p_tx_buffer s) (rx_callback s)
            (trace s).

Definition set_p_rx_buffer (r : region) (s : machine) : machine :=
  mkMachine (GDO0_PxIE s) (GDO0_PxIFG s) (GDO0_PxIN s) (rxbytes s) (rx_fifo s)
            (tx_fifo s) r (p_tx_buffer s) (rx_callback s)
            (trace s).

Definition set_p_tx_buffer (r : region) (s : machine) : machine :=
  mkMachine (GDO0_PxIE s) (GDO0_PxIFG s) (GDO0_PxIN s) (rxbytes s) (rx_fifo s)
            (tx_fifo s) (p_rx_buffer s) r (rx_callback s)
            (trace s).

Definition set_rx_callback (f : callback) (s : machine) : machine :=
  mkMachine (GDO0_PxIE s) (GDO0_PxIFG s) (GDO0_PxIN s) (rxbytes s) (rx_fifo s)
            (tx_fifo s) (p_rx_buffer s) (p_tx_buffer s) f
            (trace s).

(** ** Peripheral access (cc2500.c, not part of this file) *)

(** Modelled from the spec: [strobe(command_id)] fires a one-shot chip
    command.  The flush of the receive FIFO discards what the chip holds. *)
Definition strobe (c : strobe_command) (s : machine) : machine :=
  let s' := log [EvStrobe c] s in
  match c with
  | SFRX => set_rx 0 [] s'
  | _ => s'
  end.

(** Modelled from the spec: [read_status(register_id) -> byte] pulls a status
    byte from the chip. *)
Definition read_status (r : chip_register) (s : machine) : Z * machine :=
  (match r with RXBYTES => rxbytes s | _ => 0 end, log [EvReadStatus r] s).

(** Modelled from the spec: [read_burst_register(register_id, out_bytes,
    count)] pulls [count] bytes from the chip; the caller's [out_bytes] is
    filled with the list returned here.  A read of the FIFO takes the bytes
    from its front; the bus answers every read, here with 0 once the FIFO
    is empty. *)
Definition read_burst_register (r : chip_register) (count : nat) (s : machine)
  : list Z * machine :=
  let s' := log [EvReadBurst r count] s in
  match r with
  | FIFO => (firstn count (rx_fifo s ++ repeat 0 count),
             set_rx (rxbytes s') (skipn count (rx_fifo s')) s')
  | _ => (repeat 0 count, s')
  end.

(** Modelled from the spec: [write_burst_register(register_id, bytes, count)]
    pushes configuration or FIFO bytes to the chip; [bytes] are the [count]
    bytes read from the caller's buffer. *)
Definition write_burst_register (r : chip_register) (bytes : list Z) (s : machine)
  : machine :=
  let s' := log [EvWriteBurst r bytes] s in
  match r with
  | FIFO => set_tx_fifo (tx_fifo s' ++ bytes) s'
  | _ => s'
  end.

(** ** Calls that may not return *)

(** The driver waits for the signal line in loops without a bound: a call
    either returns or spins forever in the state it reached. *)
Inductive run :=
| Returns (s : machine)
| Hangs (s : machine).

Definition final (r : run) : machine :=
  match r with Returns s => s | Hangs s => s end.

Definition bind (r : run) (k : machine -> run) : run :=
  match r with
  | Returns s => k s
  | Hangs s => Hangs s
  end.

Notation "x <- r ;; k" := (bind r (fun x => k))
  (at level 61, r at next level, right associativity).

(** The callback invocations of a trace, in order. *)
Fixpoint callbacks (t : list event) : list (callback * region * Z) :=
  match t with
  | [] => []
  | EvCallback f b n :: t' => (f, b, n) :: callbacks t'
  | _ :: t' => callbacks t'
  end.

(** The strobes of a trace, in order. *)
Fixpoint strobes (t : list event) : list strobe_command :=
  match t with
  | [] => []
  | EvStrobe c :: t' => c :: strobes t'
  | _ :: t' => strobes t'
  end.

(** The port interrupt enable register after the stores of a trace, from
    the value [ie] it had before. *)
Definition ie_after (ie : Z) (t : list event) : Z :=
  fold_left (fun acc e => match e with EvStoreIE v => v | _ => acc end) t ie.

Definition stores_ie (e : event) : bool :=
  match e with EvStoreIE _ => true | _ => false end.

(** ** The driver (lib/radio_cc2500.c) *)

(* Optimum PATABLE levels according to Table 31 on CC2500 datasheet *)
Definition power_table : list Z :=
  [ 0x00; 0x50; 0x44; 0xC0;     (* -55, -30, -28, -26 dBm *)
    0x84; 0x81; 0x46; 0x93;     (* -24, -22, -20, -18 dBm *)
    0x55; 0x8D; 0xC6; 0x97;     (* -16, -14, -12, -10 dBm *)
    0x6E; 0x7F; 0xA9; 0xBB;     (* -8,  -6,  -4,  -2  dBm *)
    0xFE; 0xFF ].               (*  0,   1            dBm *)

(** [sizeof(power_table)]: one byte per entry. *)
Definition sizeof_power_table : Z := Z.of_nat (length power_table).

(** Empty function, the default callback. *)
Definition dummy_callback : callback := fun _ _ => 0.

Section Driver.

Context {board : Board}.

(** [setup_cc2500]: initialize the radio and register the receive callback. *)
Definition setup_cc2500 (f : callback) (s : machine) : machine :=
  let tx_power := 0xFB in
  let s := set_rx_callback f s in
  let s := log [EvInitializeRadio] s in
  let s := log [EvDelayCycles 100] s in
  let s := log [EvWriteRfSettings] s in
  let s := write_burst_register PATABLE [tx_power] s in
  strobe SRX s.

(** [while (stay (GDO0_PxIN & GDO0_PIN)) ;] Each test of the condition reads
    the port once.  [samples] is what the port will read from now on: when
    no sample ends the loop, the loop does not end. *)
Fixpoint spin (stay : Z -> bool) (samples : list Z) (s : machine) : run :=
  match samples with
  | [] => Hangs (set_PxIN [] s)
  | v :: rest =>
      let s' := log [EvLoadIN v] (set_PxIN rest s) in
      if stay (Z.land v GDO0_PIN) then spin stay rest s' else Returns s'
  end.

Definition busy_wait (stay : Z -> bool) (s : machine) : run :=
  spin stay (GDO0_PxIN s) s.

(** [cc2500_tx]: send a raw message through the radio. *)
Definition cc2500_tx (p_buffer : region) (length : Z) (s : machine) : run :=
  (* Disable interrupt *)
  let s := store_PxIE (to_u8 (Z.land (GDO0_PxIE s) (Z.lnot GDO0_PIN))) s in
  let s := write_burst_register FIFO (load_bytes 0 (Z.to_nat length) p_buffer) s in
  (* Change to TX mode, start data transfer *)
  let s := strobe STX s in
  (* Wait until GDO0 goes high (sync word txed) *)
  s <- busy_wait (fun x => x =? 0) s ;;
  (* Wait until GDO0 goes low (end of packet) *)
  s <- busy_wait (fun x => negb (x =? 0)) s ;;
  (* Clear flag *)
  let s := store_PxIFG (to_u8 (Z.land (GDO0_PxIFG s) (Z.lnot GDO0_PIN))) s in
  (* Enable interrupt *)
  Returns (store_PxIE (to_u8 (Z.lor (GDO0_PxIE s) GDO0_PIN)) s).

(** [cc2500_tx_packet]: send a packet, adding length and destination. *)
Definition cc2500_tx_packet (p_buffer : region) (length destination : Z)
    (s : machine) : run :=
  (* Add one to packet length account for address byte *)
  let tx := store LENGTH_FIELD (to_u8 (length + 1)) (p_tx_buffer s) in
  (* Insert destination address to buffer *)
  let tx := store ADDRESS_FIELD destination tx in
  (* Copy message buffer into tx buffer *)
  let tx := memcpy tx DATA_FIELD p_buffer (Z.to_nat length) in
  let s := set_p_tx_buffer tx s in
  (* Add DATA_FIELD to account for packet length and address bytes *)
  cc2500_tx (p_tx_buffer s) (to_u8 (length + Z.of_nat DATA_FIELD)) s.

(** [cc2500_set_power]: set the transmit power.  The byte written to PATABLE
    is read at [power_table[power]]; [None] stands for a read outside the
    table, whose value C does not define. *)
Definition cc2500_set_power (power : Z) (s : machine) : option machine :=
  (* Make sure not to read values outside the power table *)
  let power :=
    if power >? sizeof_power_table then to_u8 (sizeof_power_table - 1)
    else power in
  (* Set TX power *)
  match nth_error power_table (Z.to_nat power) with
  | Some v => Some (write_burst_register PATABLE [v] s)
  | None => None
  end.

(** [receive_packet(p_buffer, length)]: the result is the value returned,
    the caller's buffer, the caller's [*length] and the machine. *)
Definition receive_packet (p_buffer : region) (length : Z) (s : machine)
  : Z * region * Z * machine :=
  let '(st, s) := read_status RXBYTES s in
  (* Make sure there are bytes to be read in the FIFO buffer *)
  if negb (Z.land st NUM_RXBYTES =? 0) then
    (* Read the first byte which contains the packet length *)
    let '(first, s) := read_burst_register FIFO 1 s in
    let packet_length := nth 0 first 0 in
    (* Make sure the packet length is smaller than our buffer *)
    if packet_length <=? length then
      (* Read the rest of the packet *)
      let '(payload, s) := read_burst_register FIFO (Z.to_nat packet_length) s in
      let p_buffer := store_bytes 0 payload p_buffer in
      (* Return packet size in length variable *)
      let length := packet_length in
      (* Read two byte status *)
      let '(status, s) := read_burst_register FIFO 2 s in
      (* Append status bytes to buffer *)
      let p_buffer := store_bytes (Z.to_nat packet_length) (firstn 2 status) p_buffer in
      (* Return 1 when CRC matches, 0 otherwise *)
      (to_u8 (Z.land (nth LQI_POS status 0) CRC_OK), p_buffer, length, s)
    else
      (* If the packet is larger than the buffer, flush the RX FIFO *)
      let length := packet_length in
      let s := strobe SFRX s in
      (0, p_buffer, length, s)
  else
    (0, p_buffer, length, s).

(** [port2_isr]: the PORT2 interrupt handler. *)
Definition port2_isr (s : machine) : machine :=
  let length := to_u8 CC2500_BUFFER_LENGTH in
  let s :=
    (* Check to see if this interrupt was caused by the GDO0 pin *)
    if negb (Z.land (GDO0_PxIFG s) GDO0_PIN =? 0) then
      let '(ret, buf, length, s) := receive_packet (p_rx_buffer s) length s in
      let s := set_p_rx_buffer buf s in
      if negb (ret =? 0) then
        (* Successful packet receive, now send data to callback function *)
        log [EvCallback (rx_callback s) (p_rx_buffer s) length] s
      else s
    else s in
  (* Clear interrupt flag *)
  store_PxIFG (to_u8 (Z.land (GDO0_PxIFG s) (Z.lnot GDO0_PIN))) s.

(** The declared sizes of the static buffers. *)
Definition sizeof_p_rx_buffer : nat := Z.to_nat CC2500_BUFFER_LENGTH.
Definition sizeof_p_tx_buffer : nat := Z.to_nat CC2500_BUFFER_LENGTH.

(** The signal line reads low, resp. high, in the port sample [v]. *)
Definition gdo0_low (v : Z) : Prop := Z.land v GDO0_PIN = 0.
Definition gdo0_high (v : Z) : Prop := Z.land v GDO0_PIN <> 0.

End Driver.

(** ** A concrete board and concrete machines *)

(** A board with 64-byte buffers, GDO0 on bit 6 of the port and the 7-bit
    byte count of the chip. *)
Definition board64 : Board :=
  {| CC2500_BUFFER_LENGTH := 64; GDO0_PIN := 0x40; NUM_RXBYTES := 0x7F |}.

(** The same board with 16-byte buffers. *)
Definition board16 : Board :=
  {| CC2500_BUFFER_LENGTH := 16; GDO0_PIN := 0x40; NUM_RXBYTES := 0x7F |}.

(** The machine at rest: interrupt enabled, no flag, nothing in the FIFOs. *)
Definition at_rest : machine :=
  mkMachine 0x40 0 [] 0 [] [] (region_of_list []) (region_of_list [])
            dummy_callback [].

(** The machine when the chip has raised GDO0 with [bytes] in its FIFO. *)
Definition packet_pending (bytes : list Z) : machine :=
  mkMachine 0x40 0x40 [] (Z.of_nat (length bytes)) bytes []
            (region_of_list []) (region_of_list []) dummy_callback [].

(** The machine before a transmission during which the port reads [samples]. *)
Definition before_tx (samples : list Z) : machine :=
  mkMachine 0x40 0 samples 0 [] [] (region_of_list []) (region_of_list [])
            dummy_callback [].

(** ** Traces of a transmission *)

Section TransmitTrace.

Context {board : Board}.

(** The events of a [cc2500_tx] that returns, entered with the interrupt
    enable register at [ie] and the flag register at [ifg]: [bytes] go to the
    FIFO and [samples] are the port values read by the two waits. *)
Definition tx_events (ie ifg : Z) (bytes samples : list Z) : list event :=
  let masked := to_u8 (Z.land ie (Z.lnot GDO0_PIN)) in
  [EvStoreIE masked; EvWriteBurst FIFO bytes; EvStrobe STX]
  ++ map EvLoadIN samples
  ++ [EvStoreIFG (to_u8 (Z.land ifg (Z.lnot GDO0_PIN)));
      EvStoreIE (to_u8 (Z.lor masked GDO0_PIN))].

(** The frame for a payload read at [p_buffer]. *)
Definition frame_of (p_buffer : region) (length destination : Z) : list Z :=
  (length + 1) :: destination :: load_bytes 0 (Z.to_nat length) p_buffer.

End TransmitTrace.

(** ** Device settings *)

(** Modelled from the spec: [cc2500_settings_t] is declared in cc2500.h,
    which is not part of this file; of the device settings the driver names
    the address and the channel. *)
Record cc2500_settings_t := mkSettings {
  addr : Z;
  channr : Z
}.

(** A pointer to one setting: [&cc2500_settings.addr],
    [&cc2500_settings.channr]. *)
Inductive setting_ref := ref_addr | ref_channr.

Definition deref (r : setting_ref) (c : cc2500_settings_t) : Z :=
  match r with
  | ref_addr => addr c
  | ref_channr => channr c
  end.

(** The settings structure and the single-register writes sent to the chip,
    in order.  The two setters touch nothing else of the machine. *)
Record settings_state := mkSettingsState {
  cc2500_settings : cc2500_settings_t;
  register_writes : list (setting_ref * Z)
}.

(** Modelled from the spec: [write_register(register_ref)] pushes the setting
    the reference points to to the chip in a single-register write. *)
Definition write_register (r : setting_ref) (st : settings_state)
  : settings_state :=
  {| cc2500_settings := cc2500_settings st;
     register_writes :=
       register_writes st ++ [(r, deref r (cc2500_settings st))] |}.

(** [cc2500_set_address]: set the device address. *)
Definition cc2500_set_address (address : Z) (st : settings_state)
  : settings_state :=
  let st :=
    {| cc2500_settings :=
         {| addr := address; channr := channr (cc2500_settings st) |};
       register_writes := register_writes st |} in
  write_register ref_addr st.

(** [cc2500_set_channel]: set the device channel. *)
Definition cc2500_set_channel (channel : Z) (st : settings_state)
  : settings_state :=
  let st :=
    {| cc2500_settings :=
         {| addr := addr (cc2500_settings st); channr := channel |};
       register_writes := register_writes st |} in
  write_register ref_channr st.

Definition setting_ref_eqb (a b : setting_ref) : bool :=
  match a, b with
  | ref_addr, ref_addr | ref_channr, ref_channr => true
  | _, _ => false
  end.

(** What the chip holds for a setting after the writes [ws]: the value of the
    last write to it, if there was one. *)
Fixpoint chip_setting (r : setting_ref) (ws : list (setting_ref * Z)) : option Z :=
  match ws with
  | [] => None
  | (r', v) :: ws' =>
      match chip_setting r ws' with
      | Some v' => Some v'
      | None => if setting_ref_eqb r r' then Some v else None
      end
  end.

(** The chip agrees with the settings structure on every setting written. *)
Definition mirrored (st : settings_state) : Prop :=
  forall r v,
    chip_setting r (register_writes st) = Some v ->
    v = deref r (cc2500_settings st).

(** A call of one of the two setters. *)
Inductive setter_call :=
| SetAddress (address : Z)
| SetChannel (channel : Z).

Definition call (st : settings_state) (c : setter_call) : settings_state :=
  match c with
  | SetAddress a => cc2500_set_address a st
  | SetChannel ch => cc2500_set_channel ch st
  end.

(** Case analysis on the test of the first conditional of the goal. *)
Ltac case_if :=
  match goal with
  | |- context [if ?c then _ else _] => destruct c eqn:?
  end.

(** * Lemmas *)

(** ** Memory regions: stores and loads *)

Lemma stores_store_bytes (bs : list Z) :
  forall off r, stores (store_bytes off bs r) = stores r ++ seq off (length bs).
Proof.
  induction bs as [|b bs IH]; intros off r; cbn [store_bytes length seq].
  - now rewrite app_nil_r.
  - rewrite IH. cbn [store stores]. now rewrite <- app_assoc.
Qed.

Lemma data_store_bytes_below (bs : list Z) :
  forall off r i, (i < off)%nat -> data (store_bytes off bs r) i = data r i.
Proof.
  induction bs as [|b bs IH]; intros off r i Hi; cbn [store_bytes].
  - reflexivity.
  - rewrite IH by lia. cbn [store data].
    destruct (Nat.eqb_spec i off); [lia | reflexivity].
Qed.

Lemma load_bytes_S (off n : nat) (r : region) :
  load_bytes off (S n) r = data r off :: load_bytes (S off) n r.
Proof.
  unfold load_bytes. cbn [seq map]. rewrite Nat.add_0_r. f_equal.
  rewrite <- seq_shift, map_map. apply map_ext. intros i. f_equal. lia.
Qed.

Lemma load_bytes_store_bytes (bs : list Z) :
  forall off r, load_bytes off (length bs) (store_bytes off bs r) = bs.
Proof.
  induction bs as [|b bs IH]; intros off r; cbn [length store_bytes].
  - reflexivity.
  - rewrite load_bytes_S, IH, data_store_bytes_below by lia.
    cbn [store data]. now rewrite Nat.eqb_refl.
Qed.

Lemma load_bytes_below (bs : list Z) (off n : nat) (r : region) :
  (n <= off)%nat ->
  load_bytes 0 n (store_bytes off bs r) = load_bytes 0 n r.
Proof.
  intros Hn. unfold load_bytes. apply map_ext_in. intros i Hi.
  apply in_seq in Hi. apply data_store_bytes_below. lia.
Qed.

Lemma load_bytes_app (n m : nat) (r : region) :
  forall off,
    load_bytes off (n + m) r = load_bytes off n r ++ load_bytes (off + n) m r.
Proof.
  induction n as [|n IH]; intros off.
  - now rewrite Nat.add_0_r.
  - cbn [Nat.add]. rewrite !load_bytes_S, IH.
    now replace (off + S n)%nat with (S off + n)%nat by lia.
Qed.

Lemma length_load_bytes (off n : nat) (r : region) :
  length (load_bytes off n r) = n.
Proof. unfold load_bytes. now rewrite length_map, length_seq. Qed.

(** ** Bits *)

Lemma land_CRC_OK (x : Z) :
  Z.land x CRC_OK = if Z.testbit x 7 then CRC_OK else 0.
Proof.
  unfold CRC_OK. apply Z.bits_inj'. intros n Hn.
  rewrite Z.land_spec. change 128 with (2 ^ 7).
  rewrite Z.pow2_bits_eqb by lia.
  destruct (Z.eqb_spec 7 n) as [<-|Hne].
  - destruct (Z.testbit x 7); cbn [andb].
    + now rewrite Z.pow2_bits_eqb by lia.
    + now rewrite Z.bits_0.
  - rewrite andb_false_r. destruct (Z.testbit x 7).
    + rewrite Z.pow2_bits_eqb by lia. symmetry. now apply Z.eqb_neq.
    + now rewrite Z.bits_0.
Qed.

Lemma testbit_to_u8 (x n : Z) :
  0 <= n -> Z.testbit (to_u8 x) n = (n <? 8) && Z.testbit x n.
Proof.
  intros Hn. unfold to_u8. change 256 with (2 ^ 8).
  destruct (Z.ltb_spec n 8).
  - now rewrite Z.mod_pow2_bits_low by lia.
  - now rewrite Z.mod_pow2_bits_high by lia.
Qed.

(** Clearing the bits of [pin] in an 8-bit register leaves none of them set. *)
Lemma land_clear (x pin : Z) :
  Z.land (to_u8 (Z.land x (Z.lnot pin))) pin = 0.
Proof.
  apply Z.bits_inj'. intros n Hn.
  rewrite Z.land_spec, testbit_to_u8, Z.land_spec, Z.lnot_spec, Z.bits_0 by lia.
  destruct (n <? 8), (Z.testbit x n), (Z.testbit pin n); reflexivity.
Qed.

(** Setting the bits of an 8-bit [pin] in an 8-bit register sets them all. *)
Lemma land_set (x pin : Z) :
  0 <= pin < 256 -> Z.land (to_u8 (Z.lor x pin)) pin = pin.
Proof.
  intros Hpin. apply Z.bits_inj'. intros n Hn.
  rewrite Z.land_spec, testbit_to_u8, Z.lor_spec by lia.
  destruct (Z.ltb_spec n 8) as [Hlt|Hge].
  - destruct (Z.testbit x n), (Z.testbit pin n); reflexivity.
  - cbn [andb]. symmetry. destruct (Z.eq_dec pin 0) as [->|Hnz].
    + apply Z.bits_0.
    + apply Z.bits_above_log2; [lia|].
      assert (Z.log2 pin < 8); [|lia].
      apply Z.log2_lt_pow2; lia.
Qed.

(** ** The three outcomes of a receive *)

Section Receive.

Context {board : Board}.

(** The FIFO answers a read of [n] bytes with its first [n] bytes. *)
Lemma firstn_fifo (bytes rest : list Z) :
  firstn (length bytes) ((bytes ++ rest) ++ repeat 0 (length bytes)) = bytes.
Proof.
  rewrite <- app_assoc, firstn_app, Nat.sub_diag, firstn_all.
  cbn [firstn]. apply app_nil_r.
Qed.

Lemma length_firstn_padded (n : nat) (l : list Z) :
  length (firstn n (l ++ repeat 0 n)) = n.
Proof. rewrite length_firstn, length_app, repeat_length. lia. Qed.

(** [receive_packet] touches the chip and the caller's buffer only. *)
Lemma receive_packet_frame (p_buffer : region) (max : Z) (s : machine) :
  let s' := snd (receive_packet p_buffer max s) in
  GDO0_PxIE s' = GDO0_PxIE s /\ GDO0_PxIFG s' = GDO0_PxIFG s /\
  GDO0_PxIN s' = GDO0_PxIN s /\ tx_fifo s' = tx_fifo s /\
  p_rx_buffer s' = p_rx_buffer s /\ p_tx_buffer s' = p_tx_buffer s /\
  rx_callback s' = rx_callback s.
Proof.
  unfold receive_packet. cbn.
  repeat case_if; cbn; tauto.
Qed.

(** Nothing pending: the status query is the only effect. *)
Lemma receive_packet_idle (p_buffer : region) (max : Z) (s : machine) :
  Z.land (rxbytes s) NUM_RXBYTES = 0 ->
  receive_packet p_buffer max s = (0, p_buffer, max, log [EvReadStatus RXBYTES] s).
Proof.
  intros Hst. unfold receive_packet. cbn. now rewrite Hst.
Qed.

(** An oversized packet: length byte read, FIFO flushed. *)
Lemma receive_packet_reject (p_buffer : region) (max : Z) (s : machine)
    (L : Z) (rest : list Z) :
  Z.land (rxbytes s) NUM_RXBYTES <> 0 ->
  rx_fifo s = L :: rest ->
  max < L ->
  exists s',
    receive_packet p_buffer max s = (0, p_buffer, L, s') /\
    trace s' = trace s ++ [EvReadStatus RXBYTES; EvReadBurst FIFO 1; EvStrobe SFRX] /\
    rx_fifo s' = [].
Proof.
  intros Hst Hfifo Hlt. unfold receive_packet. cbn.
  apply Z.eqb_neq in Hst. rewrite Hst, Hfifo. cbn.
  apply Z.leb_gt in Hlt. rewrite Hlt. cbn.
  eexists. split; [reflexivity|]. cbn. split; [|reflexivity].
  now rewrite <- !app_assoc.
Qed.

(** An accepted packet: payload and status trailer stored, CRC bit returned. *)
Lemma receive_packet_accept (p_buffer : region) (max : Z) (s : machine)
    (L : Z) (payload : list Z) (rssi lqi : Z) (rest : list Z) :
  Z.land (rxbytes s) NUM_RXBYTES <> 0 ->
  rx_fifo s = L :: payload ++ rssi :: lqi :: rest ->
  Z.of_nat (length payload) = L ->
  L <= max ->
  exists s',
    receive_packet p_buffer max s
    = (to_u8 (Z.land lqi CRC_OK),
       store_bytes (length payload) [rssi; lqi] (store_bytes 0 payload p_buffer),
       L, s') /\
    trace s' = trace s ++ [EvReadStatus RXBYTES; EvReadBurst FIFO 1;
                           EvReadBurst FIFO (length payload); EvReadBurst FIFO 2] /\
    rx_fifo s' = rest.
Proof.
  intros Hst Hfifo Hlen Hle. unfold receive_packet. cbn.
  apply Z.eqb_neq in Hst. rewrite Hst, Hfifo. cbn.
  apply Z.leb_le in Hle. rewrite Hle. cbn.
  rewrite <- Hlen, Nat2Z.id.
  rewrite (firstn_fifo payload (rssi :: lqi :: rest)).
  rewrite skipn_app, skipn_all, Nat.sub_diag. cbn.
  eexists. split; [reflexivity|]. cbn. split; [|reflexivity].
  now rewrite <- !app_assoc.
Qed.

(** The offsets stored to by an accepted packet, whatever the FIFO holds
    behind the length byte. *)
Lemma receive_packet_accept_stores (p_buffer : region) (max : Z) (s : machine)
    (L : Z) (rest : list Z) :
  Z.land (rxbytes s) NUM_RXBYTES <> 0 ->
  rx_fifo s = L :: rest ->
  L <= max ->
  stores (snd (fst (fst (receive_packet p_buffer max s))))
  = stores p_buffer ++ seq 0 (Z.to_nat L + 2).
Proof.
  intros Hst Hfifo Hle. unfold receive_packet. cbn.
  apply Z.eqb_neq in Hst. rewrite Hst, Hfifo. cbn.
  apply Z.leb_le in Hle. rewrite Hle. cbn.
  rewrite !stores_store_bytes, length_firstn_padded.
  rewrite <- app_assoc. f_equal.
  remember (skipn (Z.to_nat L) rest ++ [0; 0]) as l eqn:El.
  assert (2 <= length l)%nat as Hl
    by (subst l; rewrite length_app; cbn [length]; lia).
  destruct l as [|a [|b l']]; cbn [length] in *; try lia.
  now rewrite seq_app.
Qed.

End Receive.

(** ** The interrupt handler *)

Section Interrupt.

Context {board : Board}.

Lemma callbacks_app (t u : list event) :
  callbacks (t ++ u) = callbacks t ++ callbacks u.
Proof.
  induction t as [|e t IH]; [reflexivity|].
  destruct e; cbn [app callbacks]; now rewrite IH.
Qed.

Lemma strobes_app (t u : list event) :
  strobes (t ++ u) = strobes t ++ strobes u.
Proof.
  induction t as [|e t IH]; [reflexivity|].
  destruct e; cbn [app strobes]; now rewrite IH.
Qed.

(** The handler when the interrupt did not come from the GDO0 pin. *)
Lemma port2_isr_other_source (s : machine) :
  Z.land (GDO0_PxIFG s) GDO0_PIN = 0 ->
  port2_isr s
  = store_PxIFG (to_u8 (Z.land (GDO0_PxIFG s) (Z.lnot GDO0_PIN))) s.
Proof. intros Hflag. unfold port2_isr. now rewrite Hflag. Qed.

(** The handler when the interrupt came from the GDO0 pin, by the outcome of
    [receive_packet]. *)
Lemma port2_isr_gdo0 (s s' : machine) (ret len : Z) (buf : region) :
  Z.land (GDO0_PxIFG s) GDO0_PIN <> 0 ->
  receive_packet (p_rx_buffer s) (to_u8 CC2500_BUFFER_LENGTH) s
  = (ret, buf, len, s') ->
  port2_isr s
  = let s1 := set_p_rx_buffer buf s' in
    let s2 := if negb (ret =? 0)
              then log [EvCallback (rx_callback s') buf len] s1 else s1 in
    store_PxIFG (to_u8 (Z.land (GDO0_PxIFG s2) (Z.lnot GDO0_PIN))) s2.
Proof.
  intros Hflag Hrecv. unfold port2_isr.
  apply Z.eqb_neq in Hflag. rewrite Hflag, Hrecv. reflexivity.
Qed.

(** What the handler leaves in the receive buffer and whom it calls. *)
Lemma port2_isr_delivery (s s' : machine) (ret len : Z) (buf : region) :
  Z.land (GDO0_PxIFG s) GDO0_PIN <> 0 ->
  receive_packet (p_rx_buffer s) (to_u8 CC2500_BUFFER_LENGTH) s
  = (ret, buf, len, s') ->
  p_rx_buffer (port2_isr s) = buf /\
  callbacks (trace (port2_isr s))
  = callbacks (trace s')
    ++ (if ret =? 0 then [] else [(rx_callback s', buf, len)]).
Proof.
  intros Hflag Hrecv. rewrite (port2_isr_gdo0 _ _ _ _ _ Hflag Hrecv).
  destruct (ret =? 0); cbn [negb]; cbv zeta;
    cbn [store_PxIFG log set_p_rx_buffer p_rx_buffer trace rx_callback];
    rewrite !callbacks_app; cbn [callbacks]; now rewrite ?app_nil_r.
Qed.

Lemma to_u8_small (x : Z) : 0 <= x < 256 -> to_u8 x = x.
Proof. intros Hx. unfold to_u8. now apply Z.mod_small. Qed.

Lemma filter_none {A : Type} (f : A -> bool) (l : list A) :
  (forall x, In x l -> f x = false) -> filter f l = [].
Proof.
  induction l as [|a l IH]; intros Hf; [reflexivity|].
  cbn [filter]. rewrite (Hf a) by now left.
  apply IH. intros x Hx. apply Hf. now right.
Qed.

Lemma filter_past_end (n : nat) :
  filter (past_end n) (seq 0 (n + 2)) = [n; S n].
Proof.
  rewrite seq_app, filter_app. cbn [Nat.add seq filter].
  unfold past_end at 2 3. rewrite Nat.leb_refl.
  replace (n <=? S n)%nat with true by (symmetry; apply Nat.leb_le; lia).
  rewrite filter_none; [reflexivity|].
  intros i Hi. apply in_seq in Hi.
  unfold past_end. apply Nat.leb_gt. lia.
Qed.

End Interrupt.

(** ** The transmit path: what the waits and the hand-over do *)

Section Transmit.

Context {board : Board}.

(** A wait loop reads the samples that keep it spinning, then the one that
    ends it. *)
Lemma spin_exits (stay : Z -> bool) (spinning : list Z) (v : Z) (rest : list Z) :
  Forall (fun x => stay (Z.land x GDO0_PIN) = true) spinning ->
  stay (Z.land v GDO0_PIN) = false ->
  forall s,
    spin stay (spinning ++ v :: rest) s
    = Returns (log (map EvLoadIN (spinning ++ [v])) (set_PxIN rest s)).
Proof.
  intros Hspin Hv. induction Hspin as [|x spinning Hx _ IH]; intros s.
  - cbn [app spin map]. now rewrite Hv.
  - cbn [app spin map]. rewrite Hx, IH.
    unfold log, set_PxIN. cbn. now rewrite <- app_assoc.
Qed.

(** A wait loop only reads the port. *)
Lemma spin_keeps (stay : Z -> bool) (samples : list Z) :
  forall s,
    tx_fifo (final (spin stay samples s)) = tx_fifo s /\
    p_tx_buffer (final (spin stay samples s)) = p_tx_buffer s /\
    GDO0_PxIE (final (spin stay samples s)) = GDO0_PxIE s /\
    exists t, trace (final (spin stay samples s)) = trace s ++ t.
Proof.
  induction samples as [|v rest IH]; intros s; cbn [spin].
  - cbn. repeat split. exists []. now rewrite app_nil_r.
  - destruct (stay (Z.land v GDO0_PIN)).
    + destruct (IH (log [EvLoadIN v] (set_PxIN rest s)))
        as (Hfifo & Hbuf & Hie & t & Ht).
      rewrite Hfifo, Hbuf, Hie, Ht. cbn. repeat split.
      exists (EvLoadIN v :: t). now rewrite <- app_assoc.
    + cbn. repeat split. now exists [EvLoadIN v].
Qed.

(** Whether or not the waits end, [cc2500_tx] has masked the interrupt,
    written the bytes to the transmit FIFO and issued STX, in this order. *)
Lemma cc2500_tx_final (p_buffer : region) (length : Z) (s : machine) :
  let bytes := load_bytes 0 (Z.to_nat length) p_buffer in
  let s' := final (cc2500_tx p_buffer length s) in
  tx_fifo s' = tx_fifo s ++ bytes /\
  p_tx_buffer s' = p_tx_buffer s /\
  exists t,
    trace s' = trace s
               ++ [EvStoreIE (to_u8 (Z.land (GDO0_PxIE s) (Z.lnot GDO0_PIN)));
                   EvWriteBurst FIFO bytes; EvStrobe STX] ++ t.
Proof.
  cbv zeta. unfold cc2500_tx, busy_wait.
  set (s3 := strobe STX _).
  assert (H3 : tx_fifo s3 = tx_fifo s ++ load_bytes 0 (Z.to_nat length) p_buffer
               /\ p_tx_buffer s3 = p_tx_buffer s
               /\ trace s3 = trace s
                    ++ [EvStoreIE (to_u8 (Z.land (GDO0_PxIE s) (Z.lnot GDO0_PIN)));
                        EvWriteBurst FIFO (load_bytes 0 (Z.to_nat length) p_buffer);
                        EvStrobe STX]).
  { subst s3. cbn. repeat split. now rewrite <- !app_assoc. }
  destruct H3 as (Hfifo3 & Hbuf3 & Htr3).
  destruct (spin_keeps (fun x => x =? 0) (GDO0_PxIN s3) s3)
    as (Hf4 & Hb4 & _ & t4 & Ht4).
  destruct (spin (fun x => x =? 0) (GDO0_PxIN s3) s3) as [s4|s4]; cbn [bind final] in *.
  - destruct (spin_keeps (fun x => negb (x =? 0)) (GDO0_PxIN s4) s4)
      as (Hf5 & Hb5 & _ & t5 & Ht5).
    destruct (spin (fun x => negb (x =? 0)) (GDO0_PxIN s4) s4) as [s5|s5];
      cbn [bind final] in *.
    + cbn. rewrite Hf5, Hb5, Ht5, Hf4, Hb4, Ht4, Hfifo3, Hbuf3, Htr3.
      repeat split. eexists. rewrite <- !app_assoc. reflexivity.
    + rewrite Hf5, Hb5, Ht5, Hf4, Hb4, Ht4, Hfifo3, Hbuf3, Htr3.
      repeat split. eexists. rewrite <- !app_assoc. reflexivity.
  - rewrite Hf4, Hb4, Ht4, Hfifo3, Hbuf3, Htr3.
    repeat split. eexists. rewrite <- !app_assoc. reflexivity.
Qed.

(** A transmission that does not return leaves the GDO0 interrupt masked. *)
Lemma cc2500_tx_hangs_masked (p_buffer : region) (length : Z) (s s' : machine) :
  cc2500_tx p_buffer length s = Hangs s' ->
  Z.land (GDO0_PxIE s') GDO0_PIN = 0.
Proof.
  unfold cc2500_tx, busy_wait. set (s3 := strobe STX _).
  assert (H3 : Z.land (GDO0_PxIE s3) GDO0_PIN = 0)
    by (subst s3; cbn; apply land_clear).
  destruct (spin_keeps (fun x => x =? 0) (GDO0_PxIN s3) s3) as (_ & _ & Hie4 & _).
  destruct (spin (fun x => x =? 0) (GDO0_PxIN s3) s3) as [s4|s4]; cbn [bind final] in *.
  - destruct (spin_keeps (fun x => negb (x =? 0)) (GDO0_PxIN s4) s4)
      as (_ & _ & Hie5 & _).
    destruct (spin (fun x => negb (x =? 0)) (GDO0_PxIN s4) s4) as [s5|s5];
      cbn [bind final] in *; [discriminate|].
    intros [= <-]. now rewrite Hie5, Hie4.
  - intros [= <-]. now rewrite Hie4.
Qed.

Lemma ie_after_kept (t : list event) :
  Forall (fun e => stores_ie e = false) t -> forall ie, ie_after ie t = ie.
Proof.
  unfold ie_after. induction 1 as [|e t He _ IH]; intros ie; [reflexivity|].
  cbn [fold_left]. destruct e; try discriminate He; apply IH.
Qed.

Lemma loads_store_no_ie (samples : list Z) :
  Forall (fun e => stores_ie e = false) (map EvLoadIN samples).
Proof. apply Forall_map. apply Forall_forall. reflexivity. Qed.

End Transmit.

(** ** Worked examples *)

Example ex_frame :
  tx_fifo (final (cc2500_tx_packet (board := board64)
                    (region_of_list [1; 2; 3]) 3 5 (before_tx [0; 0x40; 0x40; 0])))
  = [4; 5; 1; 2; 3].
Proof. reflexivity. Qed.

Example ex_isr :
  callbacks (trace (port2_isr (board := board64)
                      (packet_pending [3; 7; 8; 9; 0x2A; 0x80])))
  = [(dummy_callback, store_bytes 3 [0x2A; 0x80]
                        (store_bytes 0 [7; 8; 9] (region_of_list [])), 3)].
Proof. reflexivity. Qed.

(** ** Properties of the receive path *)

Section ReceivePath.

Context {board : Board}.

(** C10: when the status query reports no byte pending in the receive FIFO,
    [receive_packet] returns 0 and leaves the caller's length and buffer as
    they were; the status query is its only effect: no strobe is issued and
    no byte is read from the FIFO. *)
Theorem receive_packet_nothing_pending (p_buffer : region) (max : Z) (s : machine) :
  Z.land (rxbytes s) NUM_RXBYTES = 0 ->
  exists s',
    receive_packet p_buffer max s = (0, p_buffer, max, s') /\
    trace s' = trace s ++ [EvReadStatus RXBYTES] /\
    strobes (trace s') = strobes (trace s) /\
    rx_fifo s' = rx_fifo s.
Proof.
  intros Hst. rewrite receive_packet_idle by assumption.
  eexists. split; [reflexivity|]. cbn [log trace rx_fifo].
  rewrite strobes_app. cbn [strobes]. now rewrite app_nil_r.
Qed.

(** C1: when the FIFO reports a packet length [L] above the caller's maximum,
    [receive_packet] returns 0, sets the caller's length to [L], leaves the
    caller's buffer unwritten and issues exactly one SFRX strobe; called from
    the interrupt handler (maximum [CC2500_BUFFER_LENGTH]) the callback is not
    invoked. *)
Theorem receive_packet_oversized (p_buffer : region) (max : Z) (s : machine)
    (L : Z) (rest : list Z) :
  Z.land (rxbytes s) NUM_RXBYTES <> 0 ->
  rx_fifo s = L :: rest ->
  max < L ->
  (exists s',
     receive_packet p_buffer max s = (0, p_buffer, L, s') /\
     trace s' = trace s ++ [EvReadStatus RXBYTES; EvReadBurst FIFO 1; EvStrobe SFRX] /\
     strobes (trace s') = strobes (trace s) ++ [SFRX]) /\
  (max = to_u8 CC2500_BUFFER_LENGTH ->
     callbacks (trace (port2_isr s)) = callbacks (trace s) /\
     p_rx_buffer (port2_isr s) = p_rx_buffer s).
Proof.
  intros Hst Hfifo Hlt. split.
  - destruct (receive_packet_reject p_buffer max s L rest Hst Hfifo Hlt)
      as (s' & Hrecv & Htrace & _).
    exists s'. repeat split; try assumption.
    rewrite Htrace, strobes_app. reflexivity.
  - intros ->.
    destruct (Z.eq_dec (Z.land (GDO0_PxIFG s) GDO0_PIN) 0) as [Hflag|Hflag].
    + rewrite port2_isr_other_source by assumption. cbn.
      rewrite callbacks_app. cbn. now rewrite app_nil_r.
    + destruct (receive_packet_reject (p_rx_buffer s) _ s L rest Hst Hfifo Hlt)
        as (s' & Hrecv & Htrace & _).
      destruct (port2_isr_delivery s s' _ _ _ Hflag Hrecv) as (Hbuf & Hcb).
      rewrite Hcb, Hbuf, Htrace, callbacks_app. cbn. now rewrite !app_nil_r.
Qed.

(** C4: for an accepted packet (length at most the caller's maximum) the
    value returned is the CRC-valid bit of the second status byte: non-zero
    exactly when bit 7 of that byte is set, and 0 when it is clear, whatever
    the payload. *)
Theorem receive_packet_returns_crc_bit (p_buffer : region) (max : Z) (s : machine)
    (L : Z) (payload : list Z) (rssi lqi : Z) (rest : list Z) :
  Z.land (rxbytes s) NUM_RXBYTES <> 0 ->
  rx_fifo s = L :: payload ++ rssi :: lqi :: rest ->
  Z.of_nat (length payload) = L ->
  L <= max ->
  let ret := fst (fst (fst (receive_packet p_buffer max s))) in
  ret = (if Z.testbit lqi 7 then CRC_OK else 0) /\
  (ret <> 0 <-> Z.testbit lqi 7 = true) /\
  (Z.testbit lqi 7 = false -> ret = 0).
Proof.
  intros Hst Hfifo Hlen Hle.
  destruct (receive_packet_accept p_buffer max s L payload rssi lqi rest
              Hst Hfifo Hlen Hle) as (s' & Hrecv & _).
  rewrite Hrecv. cbn [fst]. rewrite land_CRC_OK.
  destruct (Z.testbit lqi 7); cbn; repeat split; intros; congruence.
Qed.

(** C3: for an accepted packet of length [L], [receive_packet] stores to the
    offsets 0 .. L+1 of the caller's buffer, in this order, and to no other:
    the [L] payload bytes, then the two status bytes at offsets [L] and
    [L + 1]; from the interrupt handler a packet of length
    [CC2500_BUFFER_LENGTH] is accepted and the stores at offsets
    [CC2500_BUFFER_LENGTH] and [CC2500_BUFFER_LENGTH + 1] land past the end
    of [p_rx_buffer]. *)
Theorem receive_packet_stores_trailer (p_buffer : region) (max : Z) (s : machine)
    (L : Z) (rest : list Z) :
  Z.land (rxbytes s) NUM_RXBYTES <> 0 ->
  rx_fifo s = L :: rest ->
  (L <= max ->
     stores (snd (fst (fst (receive_packet p_buffer max s))))
     = stores p_buffer ++ seq 0 (Z.to_nat L + 2)) /\
  (forall payload rssi lqi rest',
     L <= max ->
     rest = payload ++ rssi :: lqi :: rest' ->
     Z.of_nat (length payload) = L ->
     load_bytes 0 (Z.to_nat L + 2) (snd (fst (fst (receive_packet p_buffer max s))))
     = payload ++ [rssi; lqi]) /\
  (Z.land (GDO0_PxIFG s) GDO0_PIN <> 0 ->
   0 <= CC2500_BUFFER_LENGTH < 256 ->
   L = CC2500_BUFFER_LENGTH ->
     exists written,
       stores (p_rx_buffer (port2_isr s)) = stores (p_rx_buffer s) ++ written /\
       written = seq 0 (sizeof_p_rx_buffer + 2) /\
       filter (past_end sizeof_p_rx_buffer) written
       = [sizeof_p_rx_buffer; S sizeof_p_rx_buffer]).
Proof.
  intros Hst Hfifo. split; [|split].
  - intros Hle. now apply receive_packet_accept_stores with (rest := rest).
  - intros payload rssi lqi rest' Hle -> Hlen.
    destruct (receive_packet_accept p_buffer max s L payload rssi lqi rest'
                Hst Hfifo Hlen Hle) as (s' & -> & _).
    cbn [fst snd]. rewrite <- Hlen, Nat2Z.id, load_bytes_app.
    rewrite load_bytes_below by lia. rewrite load_bytes_store_bytes.
    f_equal. apply (load_bytes_store_bytes [rssi; lqi]).
  - intros Hflag Hcap ->.
    exists (seq 0 (sizeof_p_rx_buffer + 2)).
    split; [|split; [reflexivity | apply filter_past_end]].
    destruct (receive_packet (p_rx_buffer s) (to_u8 CC2500_BUFFER_LENGTH) s)
      as [[[ret buf] len] s'] eqn:Hrecv.
    destruct (port2_isr_delivery s s' _ _ _ Hflag Hrecv) as (-> & _).
    assert (Hbuf : stores buf
                   = stores (p_rx_buffer s) ++ seq 0 (sizeof_p_rx_buffer + 2)).
    { change buf with
        (snd (fst (fst (ret, buf, len, s')))).
      rewrite <- Hrecv.
      apply receive_packet_accept_stores with (rest := rest); try assumption.
      rewrite to_u8_small by assumption. lia. }
    exact Hbuf.
Qed.

(** C5: in the interrupt handler, a packet with length [L] at most
    [CC2500_BUFFER_LENGTH] and the CRC-valid bit set makes exactly one call
    of the registered callback, with the receive buffer (holding the payload)
    and [L]; a packet with the CRC-valid bit clear, an oversized packet or an
    empty FIFO makes no call. *)
Theorem port2_isr_callback (s : machine) :
  Z.land (GDO0_PxIFG s) GDO0_PIN <> 0 ->
  0 <= CC2500_BUFFER_LENGTH < 256 ->
  (forall L payload rssi lqi rest,
     Z.land (rxbytes s) NUM_RXBYTES <> 0 ->
     rx_fifo s = L :: payload ++ rssi :: lqi :: rest ->
     Z.of_nat (length payload) = L ->
     L <= CC2500_BUFFER_LENGTH ->
     Z.testbit lqi 7 = true ->
       callbacks (trace (port2_isr s))
       = callbacks (trace s) ++ [(rx_callback s, p_rx_buffer (port2_isr s), L)] /\
       load_bytes 0 (length payload) (p_rx_buffer (port2_isr s)) = payload) /\
  (forall L payload rssi lqi rest,
     Z.land (rxbytes s) NUM_RXBYTES <> 0 ->
     rx_fifo s = L :: payload ++ rssi :: lqi :: rest ->
     Z.of_nat (length payload) = L ->
     L <= CC2500_BUFFER_LENGTH ->
     Z.testbit lqi 7 = false ->
       callbacks (trace (port2_isr s)) = callbacks (trace s)) /\
  (forall L rest,
     Z.land (rxbytes s) NUM_RXBYTES <> 0 ->
     rx_fifo s = L :: rest ->
     CC2500_BUFFER_LENGTH < L ->
       callbacks (trace (port2_isr s)) = callbacks (trace s)) /\
  (Z.land (rxbytes s) NUM_RXBYTES = 0 ->
       callbacks (trace (port2_isr s)) = callbacks (trace s)).
Proof.
  intros Hflag Hcap. rewrite <- (to_u8_small _ Hcap).
  split; [|split; [|split]].
  - intros L payload rssi lqi rest Hst Hfifo Hlen Hle Hcrc.
    destruct (receive_packet_accept (p_rx_buffer s) _ s L payload rssi lqi rest
                Hst Hfifo Hlen Hle) as (s' & Hrecv & Htrace & _).
    pose proof (receive_packet_frame (p_rx_buffer s) (to_u8 CC2500_BUFFER_LENGTH) s)
      as Hframe.
    rewrite Hrecv in Hframe. cbn [snd] in Hframe.
    destruct Hframe as (_ & _ & _ & _ & _ & _ & Hcb).
    rewrite land_CRC_OK, Hcrc in Hrecv. change (to_u8 CRC_OK) with 128 in Hrecv.
    destruct (port2_isr_delivery s s' _ _ _ Hflag Hrecv) as (-> & ->).
    change (128 =? 0) with false. cbv iota.
    rewrite Htrace, callbacks_app, Hcb. cbn [callbacks]. rewrite app_nil_r.
    split; [reflexivity|].
    rewrite load_bytes_below by lia. apply load_bytes_store_bytes.
  - intros L payload rssi lqi rest Hst Hfifo Hlen Hle Hcrc.
    destruct (receive_packet_accept (p_rx_buffer s) _ s L payload rssi lqi rest
                Hst Hfifo Hlen Hle) as (s' & Hrecv & Htrace & _).
    rewrite land_CRC_OK, Hcrc in Hrecv. change (to_u8 0) with 0 in Hrecv.
    destruct (port2_isr_delivery s s' _ _ _ Hflag Hrecv) as (_ & ->).
    rewrite Htrace, callbacks_app. cbn. now rewrite !app_nil_r.
  - intros L rest Hst Hfifo Hlt.
    destruct (receive_packet_reject (p_rx_buffer s) _ s L rest Hst Hfifo Hlt)
      as (s' & Hrecv & Htrace & _).
    destruct (port2_isr_delivery s s' _ _ _ Hflag Hrecv) as (_ & ->).
    rewrite Htrace, callbacks_app. cbn. now rewrite !app_nil_r.
  - intros Hst.
    pose proof (receive_packet_idle (p_rx_buffer s) (to_u8 CC2500_BUFFER_LENGTH) s Hst)
      as Hrecv.
    destruct (port2_isr_delivery s _ _ _ _ Hflag Hrecv) as (_ & ->).
    cbn. rewrite callbacks_app. cbn. now rewrite !app_nil_r.
Qed.

(** C9: every run of the interrupt handler, whatever raised the interrupt and
    whatever was received, ends with the store that clears the GDO0 bit of the
    interrupt flag register, and returns with that bit clear. *)
Theorem port2_isr_clears_flag (s : machine) :
  Z.land (GDO0_PxIFG (port2_isr s)) GDO0_PIN = 0 /\
  exists t v,
    trace (port2_isr s) = t ++ [EvStoreIFG v] /\ Z.land v GDO0_PIN = 0.
Proof.
  unfold port2_isr. cbv zeta.
  match goal with
  | |- context [store_PxIFG _ ?x] => generalize x; intros s1
  end.
  cbn [store_PxIFG GDO0_PxIFG trace]. split.
  - apply land_clear.
  - eexists _, _. split; [reflexivity | apply land_clear].
Qed.

End ReceivePath.

(** ** Properties of the transmit path *)

Section TransmitPath.

Context {board : Board}.

(** C8: when the signal line rises and then falls, [cc2500_tx] returns after
    these effects, in this order: the store masking the GDO0 interrupt, the
    burst write of [length] bytes to the FIFO, the STX strobe, the port reads
    up to the first high sample, the port reads up to the next low sample,
    the store clearing the interrupt flag, the store enabling the interrupt;
    at every point strictly inside this sequence the GDO0 interrupt is
    masked.  On return the flag register holds the value stored, with the
    GDO0 bit clear, and the enable register the value stored, with the GDO0
    bit set; a call that is still waiting has the GDO0 bit of the enable
    register clear. *)
Theorem cc2500_tx_order (p_buffer : region) (length : Z) (s : machine)
    (lows : list Z) (hi : Z) (highs : list Z) (lo : Z) (rest : list Z) :
  0 <= GDO0_PIN < 256 ->
  GDO0_PxIN s = lows ++ hi :: highs ++ lo :: rest ->
  Forall gdo0_low lows -> gdo0_high hi ->
  Forall gdo0_high highs -> gdo0_low lo ->
  exists s' ie0 ifg ie1 new,
    cc2500_tx p_buffer length s = Returns s' /\
    trace s' = trace s ++ new /\
    new = [EvStoreIE ie0;
           EvWriteBurst FIFO (load_bytes 0 (Z.to_nat length) p_buffer);
           EvStrobe STX]
          ++ map EvLoadIN (lows ++ [hi])
          ++ map EvLoadIN (highs ++ [lo])
          ++ [EvStoreIFG ifg; EvStoreIE ie1] /\
    Z.land ie0 GDO0_PIN = 0 /\
    Z.land ifg GDO0_PIN = 0 /\
    Z.land ie1 GDO0_PIN = GDO0_PIN /\
    GDO0_PxIE s' = ie1 /\
    (forall before after,
        new = before ++ after -> before <> [] -> after <> [] ->
        Z.land (ie_after (GDO0_PxIE s) before) GDO0_PIN = 0) /\
    ie0 = to_u8 (Z.land (GDO0_PxIE s) (Z.lnot GDO0_PIN)) /\
    ifg = to_u8 (Z.land (GDO0_PxIFG s) (Z.lnot GDO0_PIN)) /\
    ie1 = to_u8 (Z.lor ie0 GDO0_PIN) /\
    GDO0_PxIFG s' = ifg /\
    Z.land (GDO0_PxIFG s') GDO0_PIN = 0 /\
    (forall samples waiting,
        cc2500_tx p_buffer length (set_PxIN samples s) = Hangs waiting ->
        Z.land (GDO0_PxIE waiting) GDO0_PIN = 0).
Proof.
  intros Hpin Hin Hlows Hhi Hhighs Hlo.
  assert (Hwaiting : forall samples waiting,
             cc2500_tx p_buffer length (set_PxIN samples s) = Hangs waiting ->
             Z.land (GDO0_PxIE waiting) GDO0_PIN = 0).
  { intros samples waiting Hhang.
    exact (cc2500_tx_hangs_masked _ _ _ _ Hhang). }
  revert Hwaiting.
  assert (Hrise : Forall (fun x => (Z.land x GDO0_PIN =? 0) = true) lows).
  { eapply Forall_impl; [|exact Hlows]. intros x Hx. now apply Z.eqb_eq. }
  assert (Hrise' : (Z.land hi GDO0_PIN =? 0) = false) by now apply Z.eqb_neq.
  assert (Hfall : Forall (fun x => negb (Z.land x GDO0_PIN =? 0) = true) highs).
  { eapply Forall_impl; [|exact Hhighs]. intros x Hx.
    apply negb_true_iff. now apply Z.eqb_neq. }
  assert (Hfall' : negb (Z.land lo GDO0_PIN =? 0) = false).
  { apply negb_false_iff. now apply Z.eqb_eq. }
  unfold cc2500_tx, busy_wait.
  set (s3 := strobe STX _).
  replace (GDO0_PxIN s3) with (lows ++ hi :: highs ++ lo :: rest)
    by (subst s3; cbn; now rewrite Hin).
  rewrite (spin_exits _ lows hi (highs ++ lo :: rest) Hrise Hrise').
  cbn [bind].
  set (s4 := log _ _).
  replace (GDO0_PxIN s4) with (highs ++ lo :: rest) by (subst s4; reflexivity).
  rewrite (spin_exits _ highs lo rest Hfall Hfall').
  cbn [bind]. intros Hwaiting.
  eexists _, _, _, _, _.
  split; [reflexivity|]. split; [|split; [reflexivity|]].
  - subst s4 s3. cbn. rewrite <- !app_assoc. reflexivity.
  - split; [apply land_clear|]. split; [apply land_clear|].
    split; [now apply land_set|]. split; [reflexivity|].
    split;
      [|split; [reflexivity|]; split; [reflexivity|]; split; [reflexivity|];
        split; [reflexivity|]; split; [apply land_clear | exact Hwaiting]].
    intros before after Hsplit Hbefore Hafter.
    destruct before as [|e before]; [congruence|].
    destruct (exists_last Hafter) as (after' & last & ->).
    cbn [app] in Hsplit. injection Hsplit as <- Hsplit.
    rewrite !app_assoc in Hsplit.
    change [EvStoreIFG ?a; EvStoreIE ?b] with ([EvStoreIFG a] ++ [EvStoreIE b])
      in Hsplit.
    rewrite !app_assoc in Hsplit.
    apply (app_inj_tail (_ :: _ :: _) (before ++ after')) in Hsplit.
    destruct Hsplit as (Hmid & _).
    assert (Hno : Forall (fun e => stores_ie e = false) (before ++ after')).
    { rewrite <- Hmid. do 2 (constructor; [reflexivity|]).
      apply Forall_app; split; [|repeat constructor].
      apply Forall_app; split; apply loads_store_no_ie. }
    apply Forall_app in Hno. destruct Hno as (Hno & _).
    unfold ie_after. cbn [fold_left]. fold (ie_after
      (to_u8 (Z.land (GDO0_PxIE s) (Z.lnot GDO0_PIN))) before).
    rewrite ie_after_kept by assumption. apply land_clear.
Qed.

End TransmitPath.

(** ** Framing and power control *)

Section Framing.

Context {board : Board}.

(** The frame [cc2500_tx_packet] builds in [p_tx_buffer] and hands to
    [cc2500_tx], whether or not the transmission ends. *)
Lemma cc2500_tx_packet_final (p_buffer : region) (length destination : Z)
    (s : machine) :
  0 <= length -> length + 2 <= 255 ->
  let s' := final (cc2500_tx_packet p_buffer length destination s) in
  let frame := (length + 1) :: destination
                 :: load_bytes 0 (Z.to_nat length) p_buffer in
  load_bytes 0 (Z.to_nat (length + 2)) (p_tx_buffer s') = frame /\
  stores (p_tx_buffer s')
  = stores (p_tx_buffer s) ++ seq 0 (Z.to_nat (length + 2)) /\
  tx_fifo s' = tx_fifo s ++ frame /\
  exists ie t,
    trace s' = trace s ++ [EvStoreIE ie; EvWriteBurst FIFO frame; EvStrobe STX] ++ t.
Proof.
  intros Hlen Hfit. cbv zeta. unfold cc2500_tx_packet. cbv zeta.
  set (tx := memcpy _ _ _ _).
  assert (Htx : load_bytes 0 (Z.to_nat (length + 2)) tx
                = (length + 1) :: destination
                    :: load_bytes 0 (Z.to_nat length) p_buffer).
  { subst tx. unfold memcpy, DATA_FIELD, ADDRESS_FIELD, LENGTH_FIELD.
    replace (Z.to_nat (length + 2)) with (S (S (Z.to_nat length))) by lia.
    rewrite !load_bytes_S, !data_store_bytes_below by lia.
    rewrite to_u8_small by lia. cbn [store data Nat.eqb]. do 2 f_equal.
    rewrite <- (length_load_bytes 0 (Z.to_nat length) p_buffer) at 1.
    apply load_bytes_store_bytes. }
  assert (Hst : stores tx
                = stores (p_tx_buffer s) ++ seq 0 (Z.to_nat (length + 2))).
  { subst tx. unfold memcpy, DATA_FIELD, ADDRESS_FIELD, LENGTH_FIELD.
    rewrite stores_store_bytes, length_load_bytes. cbn [store stores].
    replace (Z.to_nat (length + 2)) with (S (S (Z.to_nat length))) by lia.
    cbn [seq]. now rewrite <- !app_assoc. }
  change (p_tx_buffer (set_p_tx_buffer tx s)) with tx.
  destruct (cc2500_tx_final tx (to_u8 (length + Z.of_nat DATA_FIELD))
              (set_p_tx_buffer tx s)) as (Hfifo & Hbuf & t & Ht).
  rewrite Hfifo, Hbuf, Ht.
  replace (to_u8 (length + Z.of_nat DATA_FIELD)) with (length + 2)
    by (unfold DATA_FIELD; rewrite to_u8_small; lia).
  rewrite Htx. cbn [set_p_tx_buffer p_tx_buffer tx_fifo trace GDO0_PxIE].
  repeat split; try assumption. eexists _, t. reflexivity.
Qed.

(** C6: for a payload of [length] bytes with [length + 2] within the buffer
    capacity, [cc2500_tx_packet] stores [length + 1] in byte 0 of the transmit
    buffer, the destination in byte 1 and the payload from byte 2 on, all
    inside the buffer, and hands these [length + 2] bytes to the transmit
    FIFO before the STX strobe. *)
Theorem cc2500_tx_packet_frame (p_buffer : region) (length destination : Z)
    (s : machine) :
  0 <= length ->
  length + 2 <= CC2500_BUFFER_LENGTH ->
  CC2500_BUFFER_LENGTH <= 255 ->
  let s' := final (cc2500_tx_packet p_buffer length destination s) in
  let frame := (length + 1) :: destination
                 :: load_bytes 0 (Z.to_nat length) p_buffer in
  load_bytes 0 (Z.to_nat (length + 2)) (p_tx_buffer s') = frame /\
  Z.of_nat (List.length frame) = length + 2 /\
  (exists written,
     stores (p_tx_buffer s') = stores (p_tx_buffer s) ++ written /\
     filter (past_end sizeof_p_tx_buffer) written = []) /\
  tx_fifo s' = tx_fifo s ++ frame /\
  exists ie t,
    trace s' = trace s ++ [EvStoreIE ie; EvWriteBurst FIFO frame; EvStrobe STX] ++ t.
Proof.
  intros Hlen Hfit Hcap.
  destruct (cc2500_tx_packet_final p_buffer length destination s Hlen)
    as (Hframe & Hstores & Hfifo & Htrace); [lia|].
  cbv zeta. repeat split; try assumption.
  - cbn [List.length]. rewrite length_load_bytes. lia.
  - eexists. split; [exact Hstores|].
    apply filter_none. intros off Hoff. apply in_seq in Hoff.
    unfold past_end, sizeof_p_tx_buffer. apply Nat.leb_gt. lia.
Qed.

(** C7: the frame built by [cc2500_tx_packet] for a payload of [length] bytes
    with [length + 2] within the buffer capacity, put in the receive FIFO with
    a status trailer whose CRC-valid bit is set, is accepted by
    [receive_packet]: it returns the CRC bit, reports [length + 1] bytes, and
    the buffer holds the destination followed by the payload. *)
Theorem frame_round_trip (p_buffer : region) (length destination : Z)
    (sender : machine) (out : region) (max : Z) (receiver : machine)
    (rssi lqi : Z) :
  0 <= length ->
  length + 2 <= CC2500_BUFFER_LENGTH ->
  CC2500_BUFFER_LENGTH <= 255 ->
  tx_fifo sender = [] ->
  Z.land (rxbytes receiver) NUM_RXBYTES <> 0 ->
  rx_fifo receiver
  = tx_fifo (final (cc2500_tx_packet p_buffer length destination sender))
    ++ [rssi; lqi] ->
  Z.testbit lqi 7 = true ->
  length + 1 <= max ->
  exists out' receiver',
    receive_packet out max receiver = (CRC_OK, out', length + 1, receiver') /\
    load_bytes 0 (Z.to_nat (length + 1)) out'
    = destination :: load_bytes 0 (Z.to_nat length) p_buffer.
Proof.
  intros Hlen Hfit Hcap Hempty Hst Hfifo Hcrc Hmax.
  destruct (cc2500_tx_packet_final p_buffer length destination sender Hlen)
    as (_ & _ & Htx & _); [lia|].
  rewrite Htx, Hempty in Hfifo. cbn [app] in Hfifo.
  set (payload := load_bytes 0 (Z.to_nat length) p_buffer) in *.
  assert (Hpl : List.length payload = Z.to_nat length)
    by apply length_load_bytes.
  change (destination :: payload ++ [rssi; lqi])
    with ((destination :: payload) ++ rssi :: lqi :: []) in Hfifo.
  destruct (receive_packet_accept out max receiver (length + 1)
              (destination :: payload) rssi lqi [] Hst Hfifo) as (r' & Hrecv & _).
  { cbn [List.length]. lia. }
  { exact Hmax. }
  rewrite land_CRC_OK, Hcrc in Hrecv. change (to_u8 CRC_OK) with CRC_OK in Hrecv.
  eexists _, r'. split; [exact Hrecv|].
  replace (Z.to_nat (length + 1)) with (List.length (destination :: payload))
    by (cbn [List.length]; lia).
  rewrite load_bytes_below by lia. apply load_bytes_store_bytes.
Qed.

(** C2: at power level 18, the bound of the 18-entry table, [cc2500_set_power]
    does not clamp the level: it reads the byte for PATABLE at index 18, one
    past the last entry of [power_table]. *)
Theorem cc2500_set_power_at_bound :
  sizeof_power_table = 18 /\
  (18 >? sizeof_power_table) = false /\
  nth_error power_table (Z.to_nat 18) = None /\
  forall s, cc2500_set_power 18 s = None.
Proof. repeat split. Qed.

(** Above the bound the level is clamped to the last entry. *)
Lemma cc2500_set_power_above (power : Z) (s : machine) :
  18 < power ->
  cc2500_set_power power s = Some (write_burst_register PATABLE [0xFF] s).
Proof.
  intros Hp. unfold cc2500_set_power.
  replace (power >? sizeof_power_table) with true; [reflexivity|].
  symmetry. apply Z.gtb_lt. exact Hp.
Qed.

(** Inside the table the level selects its entry. *)
Lemma cc2500_set_power_in_table (power : Z) (s : machine) :
  0 <= power < 18 ->
  cc2500_set_power power s
  = Some (write_burst_register PATABLE [nth (Z.to_nat power) power_table 0] s).
Proof.
  intros Hp. unfold cc2500_set_power.
  replace (power >? sizeof_power_table) with false
    by (symmetry; rewrite Z.gtb_ltb; apply Z.ltb_ge;
        unfold sizeof_power_table; cbn; lia).
  destruct (nth_error power_table (Z.to_nat power)) as [v|] eqn:Hnth.
  - now rewrite (nth_error_nth _ _ 0 Hnth).
  - apply nth_error_None in Hnth. cbn [List.length power_table] in Hnth. lia.
Qed.

(** Levels 17 and 255 write the same byte, the last entry of the table. *)
Lemma cc2500_set_power_17_255 (s : machine) :
  cc2500_set_power 17 s = cc2500_set_power 255 s /\
  cc2500_set_power 255 s = Some (write_burst_register PATABLE [last power_table 0] s).
Proof. split; reflexivity. Qed.

End Framing.

(** ** The properties at concrete inputs *)

(** Nothing pending on the machine at rest. *)
Lemma receive_packet_nothing_pending_witness :
  exists s',
    receive_packet (board := board64) (region_of_list []) 64 at_rest
    = (0, region_of_list [], 64, s') /\
    trace s' = trace at_rest ++ [EvReadStatus RXBYTES] /\
    strobes (trace s') = strobes (trace at_rest) /\
    rx_fifo s' = rx_fifo at_rest.
Proof.
  apply (receive_packet_nothing_pending (board := board64)). reflexivity.
Defined.

(** The FIFO reports length 20 to a caller with room for 16. *)
Lemma receive_packet_oversized_witness :
  let s := packet_pending (20 :: repeat 0xAA 22) in
  (exists s',
     receive_packet (board := board16) (region_of_list []) 16 s
     = (0, region_of_list [], 20, s') /\
     trace s' = trace s ++ [EvReadStatus RXBYTES; EvReadBurst FIFO 1; EvStrobe SFRX] /\
     strobes (trace s') = strobes (trace s) ++ [SFRX]) /\
  callbacks (trace (port2_isr (board := board16) s)) = [] /\
  p_rx_buffer (port2_isr (board := board16) s) = region_of_list [].
Proof.
  cbv zeta.
  destruct (receive_packet_oversized (board := board16) (region_of_list []) 16
              (packet_pending (20 :: repeat 0xAA 22)) 20 (repeat 0xAA 22))
    as [Hrecv Hisr].
  - vm_compute. discriminate.
  - reflexivity.
  - lia.
  - split; [exact Hrecv | exact (Hisr eq_refl)].
Defined.

(** A 3-byte packet with the CRC bit set, and the same with the bit clear. *)
Lemma receive_packet_returns_crc_bit_witness :
  fst (fst (fst (receive_packet (board := board64) (region_of_list []) 64
                   (packet_pending [3; 7; 8; 9; 0x2A; 0x80])))) = CRC_OK /\
  fst (fst (fst (receive_packet (board := board64) (region_of_list []) 64
                   (packet_pending [3; 7; 8; 9; 0x2A; 0x7F])))) = 0.
Proof.
  split.
  - destruct (receive_packet_returns_crc_bit (board := board64)
                (region_of_list []) 64
                (packet_pending [3; 7; 8; 9; 0x2A; 0x80]) 3 [7; 8; 9] 0x2A 0x80 [])
      as (Hret & _).
    + vm_compute. discriminate.
    + reflexivity.
    + reflexivity.
    + lia.
    + exact Hret.
  - destruct (receive_packet_returns_crc_bit (board := board64)
                (region_of_list []) 64
                (packet_pending [3; 7; 8; 9; 0x2A; 0x7F]) 3 [7; 8; 9] 0x2A 0x7F [])
      as (Hret & _).
    + vm_compute. discriminate.
    + reflexivity.
    + reflexivity.
    + lia.
    + exact Hret.
Defined.

(** A packet that fills the 64-byte receive buffer. *)
Lemma receive_packet_stores_trailer_witness :
  let s := packet_pending (64 :: repeat 0xAA 64 ++ [0x2A; 0x80]) in
  stores (snd (fst (fst (receive_packet (board := board64) (region_of_list []) 64 s))))
  = seq 0 66 /\
  load_bytes 0 66
    (snd (fst (fst (receive_packet (board := board64) (region_of_list []) 64 s))))
  = repeat 0xAA 64 ++ [0x2A; 0x80] /\
  exists written,
    stores (p_rx_buffer (port2_isr (board := board64) s)) = written /\
    written = seq 0 66 /\
    filter (past_end 64) written = [64; 65]%nat.
Proof.
  cbv zeta.
  destruct (receive_packet_stores_trailer (board := board64) (region_of_list []) 64
              (packet_pending (64 :: repeat 0xAA 64 ++ [0x2A; 0x80]))
              64 (repeat 0xAA 64 ++ [0x2A; 0x80]))
    as (Hrecv & Hload & Hisr).
  - vm_compute. discriminate.
  - reflexivity.
  - split; [|split].
    + apply Hrecv. lia.
    + apply (Hload (repeat 0xAA 64) 0x2A 0x80 []).
      * lia.
      * reflexivity.
      * reflexivity.
    + apply Hisr.
      * vm_compute. discriminate.
      * cbn. lia.
      * reflexivity.
Defined.

(** The handler delivers a valid 3-byte packet to the callback once. *)
Lemma port2_isr_callback_witness :
  let s := packet_pending [3; 7; 8; 9; 0x2A; 0x80] in
  callbacks (trace (port2_isr (board := board64) s))
  = [(dummy_callback, p_rx_buffer (port2_isr (board := board64) s), 3)] /\
  load_bytes 0 3 (p_rx_buffer (port2_isr (board := board64) s)) = [7; 8; 9].
Proof.
  cbv zeta.
  destruct (port2_isr_callback (board := board64)
              (packet_pending [3; 7; 8; 9; 0x2A; 0x80])) as (Hvalid & _).
  - vm_compute. discriminate.
  - cbn. lia.
  - apply (Hvalid 3 [7; 8; 9] 0x2A 0x80 []).
    + vm_compute. discriminate.
    + reflexivity.
    + reflexivity.
    + cbn. lia.
    + reflexivity.
Defined.

(** The line reads low, high, high, low during a transmission of 2 bytes. *)
Lemma cc2500_tx_order_witness :
  exists s' ie0 ifg ie1 new,
    cc2500_tx (board := board64) (region_of_list [0x11; 0x22]) 2
              (before_tx [0; 0x40; 0x40; 0]) = Returns s' /\
    trace s' = trace (before_tx [0; 0x40; 0x40; 0]) ++ new /\
    new = [EvStoreIE ie0; EvWriteBurst FIFO [0x11; 0x22]; EvStrobe STX]
          ++ map EvLoadIN ([0] ++ [0x40])
          ++ map EvLoadIN ([0x40] ++ [0])
          ++ [EvStoreIFG ifg; EvStoreIE ie1] /\
    Z.land ie0 0x40 = 0 /\
    Z.land ifg 0x40 = 0 /\
    Z.land ie1 0x40 = 0x40 /\
    GDO0_PxIE s' = ie1 /\
    (forall before after,
        new = before ++ after -> before <> [] -> after <> [] ->
        Z.land (ie_after 0x40 before) 0x40 = 0) /\
    ie0 = 0 /\
    ifg = 0 /\
    ie1 = to_u8 (Z.lor ie0 0x40) /\
    GDO0_PxIFG s' = ifg /\
    Z.land (GDO0_PxIFG s') 0x40 = 0 /\
    (forall samples waiting,
        cc2500_tx (board := board64) (region_of_list [0x11; 0x22]) 2
                  (set_PxIN samples (before_tx [0; 0x40; 0x40; 0]))
        = Hangs waiting ->
        Z.land (GDO0_PxIE waiting) 0x40 = 0).
Proof.
  apply (cc2500_tx_order (board := board64) (region_of_list [0x11; 0x22]) 2
           (before_tx [0; 0x40; 0x40; 0]) [0] 0x40 [0x40] 0 []).
  - cbn. lia.
  - reflexivity.
  - repeat constructor.
  - vm_compute. discriminate.
  - constructor; [vm_compute; discriminate | constructor].
  - reflexivity.
Defined.

(** Payload 01 02 03 for destination 05 gives the frame 04 05 01 02 03. *)
Lemma cc2500_tx_packet_frame_witness :
  let s' := final (cc2500_tx_packet (board := board64) (region_of_list [1; 2; 3])
                     3 5 (before_tx [0; 0x40; 0x40; 0])) in
  load_bytes 0 5 (p_tx_buffer s') = [4; 5; 1; 2; 3] /\
  tx_fifo s' = [4; 5; 1; 2; 3].
Proof.
  cbv zeta.
  destruct (cc2500_tx_packet_frame (board := board64) (region_of_list [1; 2; 3])
              3 5 (before_tx [0; 0x40; 0x40; 0]))
    as (Hframe & _ & _ & Hfifo & _).
  - lia.
  - cbn. lia.
  - cbn. lia.
  - split; [exact Hframe | exact Hfifo].
Defined.

(** The frame 04 05 01 02 03 comes back as destination 05, payload 01 02 03. *)
Lemma frame_round_trip_witness :
  exists out' receiver',
    receive_packet (board := board64) (region_of_list []) 64
                   (packet_pending [4; 5; 1; 2; 3; 0x2A; 0x80])
    = (CRC_OK, out', 4, receiver') /\
    load_bytes 0 4 out' = [5; 1; 2; 3].
Proof.
  apply (frame_round_trip (board := board64) (region_of_list [1; 2; 3]) 3 5
           (before_tx [0; 0x40; 0x40; 0]) (region_of_list []) 64
           (packet_pending [4; 5; 1; 2; 3; 0x2A; 0x80]) 0x2A 0x80).
  - lia.
  - cbn. lia.
  - cbn. lia.
  - reflexivity.
  - vm_compute. discriminate.
  - reflexivity.
  - reflexivity.
  - lia.
Defined.

(** * Further properties of the driver *)

(** ** [receive_packet] on every input *)

(** Reduce the projections of an updated machine. *)
Ltac machine_fields :=
  cbn [log store_PxIE store_PxIFG set_PxIN set_rx set_tx_fifo set_p_rx_buffer
       set_p_tx_buffer set_rx_callback
       GDO0_PxIE GDO0_PxIFG GDO0_PxIN rxbytes rx_fifo tx_fifo p_rx_buffer
       p_tx_buffer rx_callback trace].

Section ReceiveAnyInput.

Context {board : Board}.

(** The length byte a read of the FIFO answers: its first byte, 0 when the
    FIFO is empty. *)
Lemma first_fifo_byte (fifo : list Z) :
  nth 0 (firstn 1 (fifo ++ repeat 0 1)) 0 = hd 0 fifo.
Proof. destruct fifo; reflexivity. Qed.

Lemma firstn_2_length (l : list Z) : length (firstn 2 (l ++ repeat 0 2)) = 2%nat.
Proof. apply length_firstn_padded. Qed.

(** What every call of [receive_packet] does, whatever the status and the
    FIFO hold. *)
Lemma receive_packet_summary (p_buffer : region) (max : Z) (s : machine) :
  exists ret buf len s',
    receive_packet p_buffer max s = (ret, buf, len, s') /\
    (ret = 0 \/ ret = CRC_OK) /\
    (ret <> 0 -> len <= max) /\
    callbacks (trace s') = callbacks (trace s) /\
    (forall c, In c (strobes (trace s')) -> In c (strobes (trace s)) \/ c = SFRX) /\
    exists written,
      stores buf = stores p_buffer ++ written /\
      (written = [] \/ (len <= max /\ written = seq 0 (Z.to_nat len + 2))).
Proof.
  unfold receive_packet, read_status, read_burst_register, strobe.
  cbv beta iota zeta.
  cbn [log rx_fifo rxbytes set_rx trace].
  rewrite !first_fifo_byte.
  destruct (Z.land (rxbytes s) NUM_RXBYTES =? 0); cbn [negb].
  - eexists _, _, _, _. split; [reflexivity|]. machine_fields.
    rewrite callbacks_app, strobes_app. cbn [callbacks strobes].
    rewrite !app_nil_r.
    repeat split; auto; try congruence.
    exists []. rewrite app_nil_r. auto.
  - destruct (Z.leb_spec (hd 0 (rx_fifo s)) max) as [Hle|Hgt].
    + eexists _, _, _, _. split; [reflexivity|]. machine_fields.
      rewrite !callbacks_app, !strobes_app. cbn [callbacks strobes].
      rewrite !app_nil_r.
      split; [|split; [|split; [|split]]]; auto.
      * rewrite land_CRC_OK.
        destruct (Z.testbit _ 7); [right|left]; reflexivity.
      * eexists. rewrite !stores_store_bytes, <- app_assoc.
        split; [reflexivity|]. right. split; [assumption|].
        rewrite length_firstn_padded, firstn_firstn, Nat.min_id, firstn_2_length.
        now rewrite seq_app.
    + eexists _, _, _, _. split; [reflexivity|]. machine_fields.
      rewrite !callbacks_app, !strobes_app. cbn [callbacks strobes].
      rewrite !app_nil_r.
      repeat split; auto; try congruence.
      * intros c Hc. apply in_app_or in Hc. destruct Hc as [Hc|[<-|[]]]; auto.
      * exists []. rewrite app_nil_r. auto.
Qed.

End ReceiveAnyInput.

Section ReceiveExtras.

Context {board : Board}.

(** Whatever the status register and the FIFO hold, [receive_packet] stores
    only below offset [max + 2] of the caller's buffer: a buffer of
    [max + 2] bytes is never overrun. *)
Theorem receive_packet_store_bound (p_buffer : region) (max : Z) (s : machine) :
  exists written,
    stores (snd (fst (fst (receive_packet p_buffer max s))))
    = stores p_buffer ++ written /\
    Forall (fun off => (off < Z.to_nat max + 2)%nat) written /\
    filter (past_end (Z.to_nat max + 2)) written = [].
Proof.
  destruct (receive_packet_summary p_buffer max s)
    as (ret & buf & len & s' & -> & _ & _ & _ & _ & written & Hst & Hw).
  exists written. cbn [fst snd]. split; [assumption|].
  assert (Hall : Forall (fun off => (off < Z.to_nat max + 2)%nat) written).
  { destruct Hw as [->|(Hle & ->)]; [constructor|].
    apply Forall_forall. intros off Hoff. apply in_seq in Hoff. lia. }
  split; [assumption|].
  apply filter_none. intros off Hoff.
  rewrite Forall_forall in Hall. specialize (Hall off Hoff).
  unfold past_end. apply Nat.leb_gt. lia.
Qed.

(** [receive_packet] returns 0 or [CRC_OK] (0x80) and nothing else; in
    particular it never returns 1. *)
Theorem receive_packet_return_values (p_buffer : region) (max : Z) (s : machine) :
  let ret := fst (fst (fst (receive_packet p_buffer max s))) in
  (ret = 0 \/ ret = 0x80) /\ ret <> 1.
Proof.
  destruct (receive_packet_summary p_buffer max s)
    as (ret & buf & len & s' & -> & Hret & _).
  cbn [fst]. unfold CRC_OK in Hret. split; [assumption|].
  destruct Hret as [->| ->]; discriminate.
Qed.

(** An accepted packet takes exactly its own bytes from the FIFO (length
    byte, payload, two status bytes) in three burst reads and leaves what
    follows; a rejected one takes the length byte alone before the flush. *)
Theorem receive_packet_consumes (p_buffer : region) (max : Z) (s : machine)
    (L : Z) (payload : list Z) (rssi lqi : Z) (rest : list Z) :
  Z.land (rxbytes s) NUM_RXBYTES <> 0 ->
  rx_fifo s = L :: payload ++ rssi :: lqi :: rest ->
  Z.of_nat (length payload) = L ->
  let s' := snd (receive_packet p_buffer max s) in
  (L <= max ->
     rx_fifo s' = rest /\
     trace s' = trace s ++ [EvReadStatus RXBYTES; EvReadBurst FIFO 1;
                            EvReadBurst FIFO (length payload); EvReadBurst FIFO 2]) /\
  (max < L ->
     trace s' = trace s ++ [EvReadStatus RXBYTES; EvReadBurst FIFO 1;
                            EvStrobe SFRX]).
Proof.
  intros Hst Hfifo Hlen. cbv zeta. split.
  - intros Hle.
    destruct (receive_packet_accept p_buffer max s L payload rssi lqi rest
                Hst Hfifo Hlen Hle) as (s' & -> & Htrace & Hrest).
    cbn [snd]. now split.
  - intros Hgt.
    destruct (receive_packet_reject p_buffer max s L _ Hst Hfifo Hgt)
      as (s' & -> & Htrace & _).
    exact Htrace.
Qed.

(** The length argument is both the capacity passed in and the length passed
    out: a caller that calls again with the length the first call returned
    has the next packet rejected and flushed as soon as it is longer than
    the first, although it fits the original capacity. *)
Theorem receive_packet_stale_length (p_buffer : region) (max : Z) (s : machine)
    (L1 : Z) (payload1 : list Z) (rssi1 lqi1 : Z)
    (L2 : Z) (rest : list Z)
    (ret1 : Z) (buf1 : region) (len1 : Z) (s1 : machine) :
  Z.land (rxbytes s) NUM_RXBYTES <> 0 ->
  rx_fifo s = L1 :: payload1 ++ rssi1 :: lqi1 :: L2 :: rest ->
  Z.of_nat (length payload1) = L1 ->
  L1 <= max ->
  receive_packet p_buffer max s = (ret1, buf1, len1, s1) ->
  Z.land (rxbytes s1) NUM_RXBYTES <> 0 ->
  L1 < L2 ->
  len1 = L1 /\
  exists s2,
    receive_packet buf1 len1 s1 = (0, buf1, L2, s2) /\
    strobes (trace s2) = strobes (trace s1) ++ [SFRX].
Proof.
  intros Hst Hfifo Hlen Hle Hrecv Hst1 Hlt.
  destruct (receive_packet_accept p_buffer max s L1 payload1 rssi1 lqi1 (L2 :: rest)
              Hst Hfifo Hlen Hle) as (s' & Hrecv' & _ & Hrest).
  rewrite Hrecv in Hrecv'. injection Hrecv' as _ _ -> ->.
  split; [reflexivity|].
  destruct (receive_packet_reject buf1 L1 s' L2 rest Hst1 Hrest Hlt)
    as (s2 & Hrecv2 & Htrace2 & _).
  exists s2. split; [assumption|].
  rewrite Htrace2, strobes_app. reflexivity.
Qed.

End ReceiveExtras.

(** ** The interrupt handler on every input *)

Section InterruptExtras.

Context {board : Board}.

Lemma testbit_u8_high (x n : Z) :
  0 <= x < 256 -> 8 <= n -> Z.testbit x n = false.
Proof.
  intros Hx Hn. destruct (Z.eq_dec x 0) as [->|Hnz]; [apply Z.bits_0|].
  apply Z.bits_above_log2; [lia|].
  assert (Z.log2 x < 8); [|lia].
  apply Z.log2_lt_pow2; lia.
Qed.

Lemma to_u8_clear_small (x pin : Z) :
  0 <= x < 256 -> to_u8 (Z.land x (Z.lnot pin)) = Z.land x (Z.lnot pin).
Proof.
  intros Hx. apply Z.bits_inj'. intros n Hn.
  rewrite testbit_to_u8, Z.land_spec by assumption.
  destruct (Z.ltb_spec n 8) as [Hlt|Hge]; [reflexivity|].
  now rewrite (testbit_u8_high x n) by assumption.
Qed.

(** The handler returns with the GDO0 flag bit clear. *)
Lemma port2_isr_flag_bit (s : machine) :
  Z.land (GDO0_PxIFG (port2_isr s)) GDO0_PIN = 0.
Proof.
  unfold port2_isr. cbv zeta.
  match goal with
  | |- context [store_PxIFG _ ?x] => generalize x; intros s1
  end.
  cbn [store_PxIFG GDO0_PxIFG]. apply land_clear.
Qed.

(** What the handler does not touch, and how it leaves the flag register. *)
Lemma port2_isr_keeps (s : machine) :
  GDO0_PxIE (port2_isr s) = GDO0_PxIE s /\
  GDO0_PxIFG (port2_isr s) = to_u8 (Z.land (GDO0_PxIFG s) (Z.lnot GDO0_PIN)) /\
  GDO0_PxIN (port2_isr s) = GDO0_PxIN s /\
  tx_fifo (port2_isr s) = tx_fifo s /\
  p_tx_buffer (port2_isr s) = p_tx_buffer s /\
  rx_callback (port2_isr s) = rx_callback s.
Proof.
  destruct (Z.eq_dec (Z.land (GDO0_PxIFG s) GDO0_PIN) 0) as [Hflag|Hflag].
  - rewrite port2_isr_other_source by assumption. machine_fields. tauto.
  - destruct (receive_packet (p_rx_buffer s) (to_u8 CC2500_BUFFER_LENGTH) s)
      as [[[ret buf] len] s'] eqn:Hrecv.
    pose proof (receive_packet_frame (p_rx_buffer s) (to_u8 CC2500_BUFFER_LENGTH) s)
      as Hframe.
    rewrite Hrecv in Hframe. cbn [snd] in Hframe.
    destruct Hframe as (Hie & Hifg & Hin & Htx & _ & Hptx & Hcb).
    rewrite (port2_isr_gdo0 _ _ _ _ _ Hflag Hrecv). cbv zeta.
    destruct (negb (ret =? 0)); machine_fields;
      rewrite Hie, Hifg, Hin, Htx, Hptx, Hcb; tauto.
Qed.

(** On a run of the handler that calls no callback and stores nothing past
    the end of [p_rx_buffer], the handler clears the GDO0 bit of the 8-bit
    flag register and no other: pending flags of the other pins of the port
    survive it; the interrupt enable register, the transmit buffer, the
    transmit FIFO and the registered callback are as before the run. *)
Theorem port2_isr_clears_only_gdo0 (s : machine) :
  0 <= GDO0_PxIFG s < 256 ->
  callbacks (trace (port2_isr s)) = callbacks (trace s) ->
  (forall written,
     stores (p_rx_buffer (port2_isr s)) = stores (p_rx_buffer s) ++ written ->
     filter (past_end sizeof_p_rx_buffer) written = []) ->
  GDO0_PxIFG (port2_isr s) = Z.land (GDO0_PxIFG s) (Z.lnot GDO0_PIN) /\
  (forall n, 0 <= n -> Z.testbit GDO0_PIN n = false ->
     Z.testbit (GDO0_PxIFG (port2_isr s)) n = Z.testbit (GDO0_PxIFG s) n) /\
  GDO0_PxIE (port2_isr s) = GDO0_PxIE s /\
  tx_fifo (port2_isr s) = tx_fifo s /\
  p_tx_buffer (port2_isr s) = p_tx_buffer s /\
  rx_callback (port2_isr s) = rx_callback s.
Proof.
  intros Hifg _ _.
  destruct (port2_isr_keeps s) as (Hie & Hflag & _ & Htx & Hptx & Hcb).
  rewrite Hflag, to_u8_clear_small by assumption.
  repeat split; try assumption.
  intros n Hn Hpin. rewrite Z.land_spec, Z.lnot_spec, Hpin by assumption.
  apply andb_true_r.
Qed.

(** Every run of the handler makes at most one call, to the registered
    callback, with the receive buffer and a length that does not exceed
    [CC2500_BUFFER_LENGTH] (as a [uint8_t]); this holds for any content of
    the status register and the FIFO. *)
Theorem port2_isr_at_most_one_callback (s : machine) :
  exists added,
    callbacks (trace (port2_isr s)) = callbacks (trace s) ++ added /\
    (added = [] \/
     exists n,
       added = [(rx_callback s, p_rx_buffer (port2_isr s), n)] /\
       n <= to_u8 CC2500_BUFFER_LENGTH).
Proof.
  destruct (Z.eq_dec (Z.land (GDO0_PxIFG s) GDO0_PIN) 0) as [Hflag|Hflag].
  - exists []. rewrite port2_isr_other_source by assumption. machine_fields.
    rewrite callbacks_app. cbn [callbacks]. auto.
  - destruct (receive_packet_summary (p_rx_buffer s) (to_u8 CC2500_BUFFER_LENGTH) s)
      as (ret & buf & len & s' & Hrecv & _ & Hlen & Hcbs & _).
    pose proof (receive_packet_frame (p_rx_buffer s) (to_u8 CC2500_BUFFER_LENGTH) s)
      as Hframe.
    rewrite Hrecv in Hframe. cbn [snd] in Hframe.
    destruct Hframe as (_ & _ & _ & _ & _ & _ & Hcb).
    destruct (port2_isr_delivery s s' _ _ _ Hflag Hrecv) as (-> & ->).
    rewrite Hcbs, Hcb. eexists. split; [reflexivity|].
    destruct (Z.eqb_spec ret 0) as [Hz|Hnz]; [now left|].
    right. exists len. split; [reflexivity | auto].
Qed.

Lemma filter_all {A : Type} (f : A -> bool) (l : list A) :
  (forall x, In x l -> f x = true) -> filter f l = l.
Proof.
  induction l as [|a l IH]; intros Hf; [reflexivity|].
  cbn [filter]. rewrite (Hf a) by now left.
  f_equal. apply IH. intros x Hx. apply Hf. now right.
Qed.

(** Of the stores to offsets [0 .. m-1], those past the end of an array of
    [n] elements are the stores to [n .. m-1]. *)
Lemma filter_past_end_seq (n m : nat) :
  filter (past_end n) (seq 0 m) = seq n (m - n).
Proof.
  destruct (Nat.le_gt_cases m n) as [Hle|Hgt].
  - replace (m - n)%nat with 0%nat by lia. cbn [seq].
    apply filter_none. intros off Hoff. apply in_seq in Hoff.
    unfold past_end. apply Nat.leb_gt. lia.
  - replace m with (n + (m - n))%nat at 1 by lia.
    rewrite seq_app, filter_app, filter_none, filter_all; [reflexivity| |].
    + intros off Hoff. apply in_seq in Hoff.
      unfold past_end. apply Nat.leb_le. lia.
    + intros off Hoff. apply in_seq in Hoff.
      unfold past_end. apply Nat.leb_gt. lia.
Qed.

(** For an accepted packet of length [L] the handler's stores past the end
    of [p_rx_buffer] are those at offsets [CC2500_BUFFER_LENGTH .. L+1]:
    none when [L + 2 <= CC2500_BUFFER_LENGTH], so packets up to
    [CC2500_BUFFER_LENGTH - 2] bytes are received inside the buffer. *)
Theorem port2_isr_stores_past_end (s : machine) (L : Z) (rest : list Z) :
  Z.land (GDO0_PxIFG s) GDO0_PIN <> 0 ->
  Z.land (rxbytes s) NUM_RXBYTES <> 0 ->
  rx_fifo s = L :: rest ->
  0 <= CC2500_BUFFER_LENGTH < 256 ->
  0 <= L <= CC2500_BUFFER_LENGTH ->
  exists written,
    stores (p_rx_buffer (port2_isr s)) = stores (p_rx_buffer s) ++ written /\
    filter (past_end sizeof_p_rx_buffer) written
    = seq sizeof_p_rx_buffer (Z.to_nat (L + 2 - CC2500_BUFFER_LENGTH)) /\
    (L + 2 <= CC2500_BUFFER_LENGTH ->
       filter (past_end sizeof_p_rx_buffer) written = []).
Proof.
  intros Hflag Hst Hfifo Hcap HL.
  destruct (receive_packet (p_rx_buffer s) (to_u8 CC2500_BUFFER_LENGTH) s)
    as [[[ret buf] len] s'] eqn:Hrecv.
  destruct (port2_isr_delivery s s' _ _ _ Hflag Hrecv) as (-> & _).
  assert (Hbuf : stores buf = stores (p_rx_buffer s) ++ seq 0 (Z.to_nat L + 2)).
  { change buf with (snd (fst (fst (ret, buf, len, s')))).
    rewrite <- Hrecv.
    apply receive_packet_accept_stores with (rest := rest); try assumption.
    rewrite to_u8_small by assumption. lia. }
  exists (seq 0 (Z.to_nat L + 2)). split; [assumption|].
  rewrite filter_past_end_seq. unfold sizeof_p_rx_buffer.
  replace (Z.to_nat L + 2 - Z.to_nat CC2500_BUFFER_LENGTH)%nat
    with (Z.to_nat (L + 2 - CC2500_BUFFER_LENGTH)) by lia.
  split; [reflexivity|].
  intros Hfit. now replace (Z.to_nat (L + 2 - CC2500_BUFFER_LENGTH)) with 0%nat by lia.
Qed.

(** A second run of the handler with no new interrupt finds the flag clear:
    it queries no status, reads no FIFO byte, stores nothing in the receive
    buffer and calls nobody. *)
Theorem port2_isr_second_run (s : machine) :
  let s1 := port2_isr s in
  exists v,
    trace (port2_isr s1) = trace s1 ++ [EvStoreIFG v] /\
    Z.land v GDO0_PIN = 0 /\
    callbacks (trace (port2_isr s1)) = callbacks (trace s1) /\
    p_rx_buffer (port2_isr s1) = p_rx_buffer s1 /\
    rx_fifo (port2_isr s1) = rx_fifo s1.
Proof.
  cbv zeta. rewrite (port2_isr_other_source (port2_isr s))
    by apply port2_isr_flag_bit.
  machine_fields. eexists. split; [reflexivity|].
  split; [apply land_clear|].
  rewrite callbacks_app. cbn [callbacks]. rewrite app_nil_r. auto.
Qed.

End InterruptExtras.

(** ** The transmit path on every input *)

Section TransmitExtras.

Context {board : Board}.

(** Two machines with the same fields are the same machine. *)
Lemma machine_eq (a b : machine) :
  GDO0_PxIE a = GDO0_PxIE b -> GDO0_PxIFG a = GDO0_PxIFG b ->
  GDO0_PxIN a = GDO0_PxIN b -> rxbytes a = rxbytes b ->
  rx_fifo a = rx_fifo b -> tx_fifo a = tx_fifo b ->
  p_rx_buffer a = p_rx_buffer b -> p_tx_buffer a = p_tx_buffer b ->
  rx_callback a = rx_callback b -> trace a = trace b ->
  a = b.
Proof.
  destruct a, b. cbn. intros. subst. reflexivity.
Qed.

(** A wait loop that no sample ends reads them all and does not return. *)
Lemma spin_hangs (stay : Z -> bool) (samples : list Z) :
  Forall (fun x => stay (Z.land x GDO0_PIN) = true) samples ->
  forall s,
    spin stay samples s = Hangs (log (map EvLoadIN samples) (set_PxIN [] s)).
Proof.
  induction 1 as [|x samples Hx _ IH]; intros s.
  - cbn [spin map]. unfold log, set_PxIN. cbn. now rewrite app_nil_r.
  - cbn [spin map]. rewrite Hx, IH.
    unfold log, set_PxIN. cbn. now rewrite <- app_assoc.
Qed.

(** A wait loop changes what is left to read on the port, and the trace by
    port reads; nothing else. *)
Lemma spin_frame (stay : Z -> bool) (samples : list Z) :
  forall s,
    let s' := final (spin stay samples s) in
    GDO0_PxIE s' = GDO0_PxIE s /\ GDO0_PxIFG s' = GDO0_PxIFG s /\
    rxbytes s' = rxbytes s /\ rx_fifo s' = rx_fifo s /\
    tx_fifo s' = tx_fifo s /\ p_rx_buffer s' = p_rx_buffer s /\
    p_tx_buffer s' = p_tx_buffer s /\ rx_callback s' = rx_callback s /\
    callbacks (trace s') = callbacks (trace s) /\
    strobes (trace s') = strobes (trace s).
Proof.
  induction samples as [|v rest IH]; intros s; cbv zeta; cbn [spin].
  - cbn. tauto.
  - destruct (stay (Z.land v GDO0_PIN)).
    + specialize (IH (log [EvLoadIN v] (set_PxIN rest s))). cbv zeta in IH.
      destruct IH as (H1 & H2 & H3 & H4 & H5 & H6 & H7 & H8 & H9 & H10).
      rewrite H1, H2, H3, H4, H5, H6, H7, H8, H9, H10. machine_fields.
      rewrite callbacks_app, strobes_app. cbn [callbacks strobes].
      rewrite !app_nil_r. tauto.
    + cbn [final]. machine_fields.
      rewrite callbacks_app, strobes_app. cbn [callbacks strobes].
      rewrite !app_nil_r. tauto.
Qed.

Lemma low_samples_spin (samples : list Z) :
  Forall gdo0_low samples ->
  Forall (fun x => (Z.land x GDO0_PIN =? 0) = true) samples.
Proof.
  intros H. eapply Forall_impl; [|exact H]. intros x Hx. now apply Z.eqb_eq.
Qed.

Lemma high_samples_spin (samples : list Z) :
  Forall gdo0_high samples ->
  Forall (fun x => negb (Z.land x GDO0_PIN =? 0) = true) samples.
Proof.
  intros H. eapply Forall_impl; [|exact H]. intros x Hx.
  apply negb_true_iff. now apply Z.eqb_neq.
Qed.

(** The machine [cc2500_tx] returns when the line rises and falls. *)
Lemma cc2500_tx_returns (p_buffer : region) (length : Z) (s : machine)
    (lows : list Z) (hi : Z) (highs : list Z) (lo : Z) (rest : list Z) :
  GDO0_PxIN s = lows ++ hi :: highs ++ lo :: rest ->
  Forall gdo0_low lows -> gdo0_high hi ->
  Forall gdo0_high highs -> gdo0_low lo ->
  let bytes := load_bytes 0 (Z.to_nat length) p_buffer in
  let masked := to_u8 (Z.land (GDO0_PxIE s) (Z.lnot GDO0_PIN)) in
  cc2500_tx p_buffer length s
  = Returns (mkMachine (to_u8 (Z.lor masked GDO0_PIN))
               (to_u8 (Z.land (GDO0_PxIFG s) (Z.lnot GDO0_PIN)))
               rest (rxbytes s) (rx_fifo s) (tx_fifo s ++ bytes)
               (p_rx_buffer s) (p_tx_buffer s) (rx_callback s)
               (trace s ++ tx_events (GDO0_PxIE s) (GDO0_PxIFG s) bytes
                                     (lows ++ hi :: highs ++ [lo]))).
Proof.
  intros Hin Hlows Hhi Hhighs Hlo. cbv zeta.
  assert (Hrise' : (Z.land hi GDO0_PIN =? 0) = false) by now apply Z.eqb_neq.
  assert (Hfall' : negb (Z.land lo GDO0_PIN =? 0) = false).
  { apply negb_false_iff. now apply Z.eqb_eq. }
  unfold cc2500_tx, busy_wait.
  set (s3 := strobe STX _).
  replace (GDO0_PxIN s3) with (lows ++ hi :: highs ++ lo :: rest)
    by (subst s3; cbn; now rewrite Hin).
  rewrite (spin_exits _ lows hi (highs ++ lo :: rest)
             (low_samples_spin _ Hlows) Hrise').
  cbn [bind].
  set (s4 := log _ _).
  replace (GDO0_PxIN s4) with (highs ++ lo :: rest) by (subst s4; reflexivity).
  rewrite (spin_exits _ highs lo rest (high_samples_spin _ Hhighs) Hfall').
  cbn [bind]. subst s4 s3. f_equal.
  apply machine_eq; cbn [strobe write_burst_register]; machine_fields;
    try reflexivity.
  unfold tx_events. cbv zeta.
  repeat first [rewrite map_app | rewrite <- app_assoc | progress cbn [map app]].
  reflexivity.
Qed.

(** When the signal line never rises, or rises and never falls,
    [cc2500_tx] does not return: the bytes are in the FIFO and STX is
    issued, every sample is read, the flag is not cleared and the GDO0
    interrupt stays masked. *)
Theorem cc2500_tx_stuck (p_buffer : region) (length : Z) (s : machine) :
  (Forall gdo0_low (GDO0_PxIN s) \/
   exists lows hi highs,
     GDO0_PxIN s = lows ++ hi :: highs /\
     Forall gdo0_low lows /\ gdo0_high hi /\ Forall gdo0_high highs) ->
  exists s',
    cc2500_tx p_buffer length s = Hangs s' /\
    trace s' = trace s
               ++ [EvStoreIE (to_u8 (Z.land (GDO0_PxIE s) (Z.lnot GDO0_PIN)));
                   EvWriteBurst FIFO (load_bytes 0 (Z.to_nat length) p_buffer);
                   EvStrobe STX]
               ++ map EvLoadIN (GDO0_PxIN s) /\
    Z.land (GDO0_PxIE s') GDO0_PIN = 0 /\
    GDO0_PxIFG s' = GDO0_PxIFG s /\
    tx_fifo s' = tx_fifo s ++ load_bytes 0 (Z.to_nat length) p_buffer.
Proof.
  intros Hline. unfold cc2500_tx, busy_wait.
  set (s3 := strobe STX _).
  assert (Hin3 : GDO0_PxIN s3 = GDO0_PxIN s) by (subst s3; reflexivity).
  rewrite Hin3.
  destruct Hline as [Hlow|(lows & hi & highs & Hin & Hlows & Hhi & Hhighs)].
  - rewrite (spin_hangs _ _ (low_samples_spin _ Hlow)). cbn [bind].
    eexists. split; [reflexivity|]. subst s3. machine_fields.
    cbn [strobe write_burst_register]. machine_fields.
    split; [now rewrite <- !app_assoc|].
    split; [apply land_clear|]. split; reflexivity.
  - assert (Hrise' : (Z.land hi GDO0_PIN =? 0) = false) by now apply Z.eqb_neq.
    rewrite Hin.
    rewrite (spin_exits _ lows hi highs (low_samples_spin _ Hlows) Hrise').
    cbn [bind]. set (s4 := log _ _).
    replace (GDO0_PxIN s4) with highs by (subst s4; reflexivity).
    rewrite (spin_hangs _ _ (high_samples_spin _ Hhighs)). cbn [bind].
    eexists. split; [reflexivity|]. subst s4 s3. machine_fields.
    cbn [strobe write_burst_register]. machine_fields.
    split.
    + rewrite <- !app_assoc. cbn [app]. do 4 f_equal.
      rewrite <- map_app, <- app_assoc. reflexivity.
    + split; [apply land_clear|]. split; reflexivity.
Qed.

Lemma to_u8_set_small (ie pin : Z) :
  0 <= ie < 256 -> 0 <= pin < 256 ->
  to_u8 (Z.lor (to_u8 (Z.land ie (Z.lnot pin))) pin) = Z.lor ie pin.
Proof.
  intros Hie Hpin. apply Z.bits_inj'. intros n Hn.
  rewrite testbit_to_u8, !Z.lor_spec, testbit_to_u8, Z.land_spec, Z.lnot_spec
    by assumption.
  destruct (Z.ltb_spec n 8) as [Hlt|Hge].
  - destruct (Z.testbit ie n), (Z.testbit pin n); reflexivity.
  - now rewrite (testbit_u8_high ie n), (testbit_u8_high pin n) by assumption.
Qed.

(** On return from [cc2500_tx] the GDO0 interrupt is enabled whether or not
    it was enabled on entry, the GDO0 flag is cleared, the other bits of both
    8-bit registers are as on entry, and the port samples up to the falling
    edge are consumed. *)
Theorem cc2500_tx_registers (p_buffer : region) (length : Z) (s : machine)
    (lows : list Z) (hi : Z) (highs : list Z) (lo : Z) (rest : list Z) :
  0 <= GDO0_PIN < 256 ->
  0 <= GDO0_PxIE s < 256 ->
  0 <= GDO0_PxIFG s < 256 ->
  GDO0_PxIN s = lows ++ hi :: highs ++ lo :: rest ->
  Forall gdo0_low lows -> gdo0_high hi ->
  Forall gdo0_high highs -> gdo0_low lo ->
  exists s',
    cc2500_tx p_buffer length s = Returns s' /\
    GDO0_PxIE s' = Z.lor (GDO0_PxIE s) GDO0_PIN /\
    GDO0_PxIFG s' = Z.land (GDO0_PxIFG s) (Z.lnot GDO0_PIN) /\
    GDO0_PxIN s' = rest.
Proof.
  intros Hpin Hie Hifg Hin Hlows Hhi Hhighs Hlo.
  rewrite (cc2500_tx_returns p_buffer length s lows hi highs lo rest)
    by assumption.
  eexists. split; [reflexivity|]. machine_fields.
  rewrite to_u8_set_small, to_u8_clear_small by assumption. auto.
Qed.

(** Whether or not the transmission ends, what [cc2500_tx] changes is the
    interrupt registers, the port samples, the transmit FIFO and the trace. *)
Lemma cc2500_tx_frame (p_buffer : region) (length : Z) (s : machine) :
  let s' := final (cc2500_tx p_buffer length s) in
  rxbytes s' = rxbytes s /\ rx_fifo s' = rx_fifo s /\
  p_rx_buffer s' = p_rx_buffer s /\ p_tx_buffer s' = p_tx_buffer s /\
  rx_callback s' = rx_callback s /\
  callbacks (trace s') = callbacks (trace s) /\
  strobes (trace s') = strobes (trace s) ++ [STX].
Proof.
  cbv zeta. unfold cc2500_tx, busy_wait.
  set (s3 := strobe STX _).
  assert (H3 : rxbytes s3 = rxbytes s /\ rx_fifo s3 = rx_fifo s /\
               p_rx_buffer s3 = p_rx_buffer s /\ p_tx_buffer s3 = p_tx_buffer s /\
               rx_callback s3 = rx_callback s /\
               callbacks (trace s3) = callbacks (trace s) /\
               strobes (trace s3) = strobes (trace s) ++ [STX]).
  { subst s3. cbn [strobe write_burst_register]. machine_fields.
    rewrite !callbacks_app, !strobes_app. cbn [callbacks strobes].
    rewrite !app_nil_r. tauto. }
  destruct H3 as (A1 & A2 & A3 & A4 & A5 & A6 & A7).
  pose proof (spin_frame (fun x => x =? 0) (GDO0_PxIN s3) s3) as H4.
  cbv zeta in H4.
  destruct H4 as (_ & _ & B1 & B2 & _ & B3 & B4 & B5 & B6 & B7).
  destruct (spin (fun x => x =? 0) (GDO0_PxIN s3) s3) as [s4|s4];
    cbn [bind final] in *.
  - pose proof (spin_frame (fun x => negb (x =? 0)) (GDO0_PxIN s4) s4) as H5.
    cbv zeta in H5.
    destruct H5 as (_ & _ & C1 & C2 & _ & C3 & C4 & C5 & C6 & C7).
    destruct (spin (fun x => negb (x =? 0)) (GDO0_PxIN s4) s4) as [s5|s5];
      cbn [bind final] in *.
    + machine_fields. rewrite !callbacks_app, !strobes_app.
      cbn [callbacks strobes]. rewrite !app_nil_r.
      rewrite C1, C2, C3, C4, C5, C6, C7, B1, B2, B3, B4, B5, B6, B7. tauto.
    + rewrite C1, C2, C3, C4, C5, C6, C7, B1, B2, B3, B4, B5, B6, B7. tauto.
  - rewrite B1, B2, B3, B4, B5, B6, B7. tauto.
Qed.

(** A send whose frame fits the transmit buffer
    ([length + 2 <= CC2500_BUFFER_LENGTH]), finished or not, leaves the
    receive side alone: the receive buffer, the receive FIFO and the
    registered callback are unchanged, no callback is invoked, the one strobe
    issued is STX, and no store lands past the end of [p_tx_buffer]. *)
Theorem cc2500_tx_packet_leaves_receive_side (p_buffer : region)
    (length destination : Z) (s : machine) :
  0 <= length <= 255 ->
  length + 2 <= CC2500_BUFFER_LENGTH ->
  let s' := final (cc2500_tx_packet p_buffer length destination s) in
  rx_fifo s' = rx_fifo s /\
  p_rx_buffer s' = p_rx_buffer s /\
  rx_callback s' = rx_callback s /\
  callbacks (trace s') = callbacks (trace s) /\
  strobes (trace s') = strobes (trace s) ++ [STX] /\
  exists written,
    stores (p_tx_buffer s') = stores (p_tx_buffer s) ++ written /\
    filter (past_end sizeof_p_tx_buffer) written = [].
Proof.
  intros Hlen Hfit. cbv zeta. unfold cc2500_tx_packet. cbv zeta.
  set (tx := memcpy _ _ _ _).
  pose proof (cc2500_tx_frame (p_tx_buffer (set_p_tx_buffer tx s))
                (to_u8 (length + Z.of_nat DATA_FIELD)) (set_p_tx_buffer tx s))
    as H.
  cbv zeta in H. destruct H as (_ & H2 & H3 & H4 & H5 & H6 & H7).
  rewrite H2, H3, H4, H5, H6, H7. machine_fields.
  repeat split; try reflexivity.
  exists (seq 0 (Z.to_nat length + 2)). split.
  - subst tx. unfold memcpy, DATA_FIELD, ADDRESS_FIELD, LENGTH_FIELD.
    rewrite stores_store_bytes, length_load_bytes. cbn [store stores].
    replace (Z.to_nat length + 2)%nat with (S (S (Z.to_nat length))) by lia.
    cbn [seq]. now rewrite <- !app_assoc.
  - apply filter_none. intros off Hoff. apply in_seq in Hoff.
    unfold past_end, sizeof_p_tx_buffer. apply Nat.leb_gt. lia.
Qed.

(** [cc2500_tx_packet] checks no bound: for any length it stores
    [length + 2] bytes at offsets [0 .. length+1] of [p_tx_buffer], so the
    stores at offsets [CC2500_BUFFER_LENGTH .. length+1] land past its
    end. *)
Theorem cc2500_tx_packet_stores (p_buffer : region) (length destination : Z)
    (s : machine) :
  let s' := final (cc2500_tx_packet p_buffer length destination s) in
  exists written,
    stores (p_tx_buffer s') = stores (p_tx_buffer s) ++ written /\
    written = seq 0 (Z.to_nat length + 2) /\
    filter (past_end sizeof_p_tx_buffer) written
    = seq sizeof_p_tx_buffer (Z.to_nat length + 2 - sizeof_p_tx_buffer).
Proof.
  cbv zeta. unfold cc2500_tx_packet. cbv zeta.
  set (tx := memcpy _ _ _ _).
  destruct (cc2500_tx_final (p_tx_buffer (set_p_tx_buffer tx s))
              (to_u8 (length + Z.of_nat DATA_FIELD)) (set_p_tx_buffer tx s))
    as (_ & -> & _).
  machine_fields. exists (seq 0 (Z.to_nat length + 2)).
  split; [|split; [reflexivity | apply filter_past_end_seq]].
  subst tx. unfold memcpy, DATA_FIELD, ADDRESS_FIELD, LENGTH_FIELD.
  rewrite stores_store_bytes, length_load_bytes. cbn [store stores].
  replace (Z.to_nat length + 2)%nat with (S (S (Z.to_nat length))) by lia.
  cbn [seq]. now rewrite <- !app_assoc.
Qed.

End TransmitExtras.

(** ** Sending and receiving composed *)

Section Composition.

Context {board : Board}.

(** The bytes [cc2500_tx_packet] leaves at the start of the transmit
    buffer. *)
Lemma tx_buffer_frame (p_buffer r : region) (length destination : Z) :
  0 <= length -> length + 2 <= 255 ->
  load_bytes 0 (Z.to_nat (length + 2))
    (memcpy (store ADDRESS_FIELD destination
               (store LENGTH_FIELD (to_u8 (length + 1)) r))
            DATA_FIELD p_buffer (Z.to_nat length))
  = frame_of p_buffer length destination.
Proof.
  intros Hlen Hfit. unfold frame_of, memcpy, DATA_FIELD, ADDRESS_FIELD, LENGTH_FIELD.
  replace (Z.to_nat (length + 2)) with (S (S (Z.to_nat length))) by lia.
  rewrite !load_bytes_S, !data_store_bytes_below by lia.
  rewrite to_u8_small by lia. cbn [store data Nat.eqb]. do 2 f_equal.
  rewrite <- (length_load_bytes 0 (Z.to_nat length) p_buffer) at 1.
  apply load_bytes_store_bytes.
Qed.

(** A send that returns. *)
Lemma cc2500_tx_packet_returns (p_buffer : region) (length destination : Z)
    (s : machine)
    (lows : list Z) (hi : Z) (highs : list Z) (lo : Z) (rest : list Z) :
  0 <= length -> length + 2 <= 255 ->
  GDO0_PxIN s = lows ++ hi :: highs ++ lo :: rest ->
  Forall gdo0_low lows -> gdo0_high hi ->
  Forall gdo0_high highs -> gdo0_low lo ->
  exists s',
    cc2500_tx_packet p_buffer length destination s = Returns s' /\
    GDO0_PxIN s' = rest /\
    tx_fifo s' = tx_fifo s ++ frame_of p_buffer length destination /\
    trace s' = trace s
               ++ tx_events (GDO0_PxIE s) (GDO0_PxIFG s)
                    (frame_of p_buffer length destination)
                    (lows ++ hi :: highs ++ [lo]) /\
    load_bytes 0 (Z.to_nat (length + 2)) (p_tx_buffer s')
    = frame_of p_buffer length destination.
Proof.
  intros Hlen Hfit Hin Hlows Hhi Hhighs Hlo.
  unfold cc2500_tx_packet. cbv zeta.
  set (tx := memcpy _ _ _ _).
  assert (Htx : load_bytes 0 (Z.to_nat (length + 2)) tx
                = frame_of p_buffer length destination)
    by (subst tx; now apply tx_buffer_frame).
  change (p_tx_buffer (set_p_tx_buffer tx s)) with tx.
  rewrite (cc2500_tx_returns tx _ (set_p_tx_buffer tx s) lows hi highs lo rest)
    by assumption.
  replace (to_u8 (length + Z.of_nat DATA_FIELD)) with (length + 2)
    by (unfold DATA_FIELD; rewrite to_u8_small; lia).
  rewrite Htx. eexists. split; [reflexivity|]. machine_fields. auto.
Qed.

(** Two sends in a row, over a line that rises and falls twice: both return,
    the FIFO receives the first frame and then the second, and every event
    of the second send follows the last port read of the first. *)
Theorem cc2500_tx_packet_twice (p1 : region) (length1 destination1 : Z)
    (p2 : region) (length2 destination2 : Z) (s : machine)
    (lows1 : list Z) (hi1 : Z) (highs1 : list Z) (lo1 : Z)
    (lows2 : list Z) (hi2 : Z) (highs2 : list Z) (lo2 : Z) (rest : list Z) :
  0 <= length1 -> length1 + 2 <= 255 ->
  0 <= length2 -> length2 + 2 <= 255 ->
  GDO0_PxIN s = lows1 ++ hi1 :: highs1 ++ lo1
                  :: lows2 ++ hi2 :: highs2 ++ lo2 :: rest ->
  Forall gdo0_low lows1 -> gdo0_high hi1 ->
  Forall gdo0_high highs1 -> gdo0_low lo1 ->
  Forall gdo0_low lows2 -> gdo0_high hi2 ->
  Forall gdo0_high highs2 -> gdo0_low lo2 ->
  let frame1 := frame_of p1 length1 destination1 in
  let frame2 := frame_of p2 length2 destination2 in
  exists s1 s2,
    cc2500_tx_packet p1 length1 destination1 s = Returns s1 /\
    (s1 <- cc2500_tx_packet p1 length1 destination1 s ;;
     cc2500_tx_packet p2 length2 destination2 s1) = Returns s2 /\
    tx_fifo s2 = tx_fifo s ++ frame1 ++ frame2 /\
    trace s2 = trace s
               ++ tx_events (GDO0_PxIE s) (GDO0_PxIFG s) frame1
                    (lows1 ++ hi1 :: highs1 ++ [lo1])
               ++ tx_events (GDO0_PxIE s1) (GDO0_PxIFG s1) frame2
                    (lows2 ++ hi2 :: highs2 ++ [lo2]) /\
    load_bytes 0 (Z.to_nat (length2 + 2)) (p_tx_buffer s2) = frame2 /\
    GDO0_PxIN s2 = rest.
Proof.
  intros Hl1 Hf1 Hl2 Hf2 Hin Hlows1 Hhi1 Hhighs1 Hlo1 Hlows2 Hhi2 Hhighs2 Hlo2.
  cbv zeta.
  destruct (cc2500_tx_packet_returns p1 length1 destination1 s
              lows1 hi1 highs1 lo1 (lows2 ++ hi2 :: highs2 ++ lo2 :: rest)
              Hl1 Hf1 Hin Hlows1 Hhi1 Hhighs1 Hlo1)
    as (s1 & Hret1 & Hin1 & Hfifo1 & Htrace1 & _).
  destruct (cc2500_tx_packet_returns p2 length2 destination2 s1
              lows2 hi2 highs2 lo2 rest
              Hl2 Hf2 Hin1 Hlows2 Hhi2 Hhighs2 Hlo2)
    as (s2 & Hret2 & Hin2 & Hfifo2 & Htrace2 & Hbuf2).
  exists s1, s2. rewrite Hret1. cbn [bind].
  repeat split; try assumption.
  - now rewrite Hfifo2, Hfifo1, <- app_assoc.
  - now rewrite Htrace2, Htrace1, <- app_assoc.
Qed.

(** A frame sent by [cc2500_tx_packet] and received with a valid CRC reaches
    the receiver's callback once, through the interrupt handler, as
    [length + 1] bytes: the destination byte first, then the payload. *)
Theorem send_then_interrupt (p_buffer : region) (length destination : Z)
    (sender receiver : machine) (rssi lqi : Z) :
  0 <= length ->
  length + 2 <= CC2500_BUFFER_LENGTH ->
  CC2500_BUFFER_LENGTH <= 255 ->
  tx_fifo sender = [] ->
  Z.land (GDO0_PxIFG receiver) GDO0_PIN <> 0 ->
  Z.land (rxbytes receiver) NUM_RXBYTES <> 0 ->
  rx_fifo receiver
  = tx_fifo (final (cc2500_tx_packet p_buffer length destination sender))
    ++ [rssi; lqi] ->
  Z.testbit lqi 7 = true ->
  callbacks (trace (port2_isr receiver))
  = callbacks (trace receiver)
    ++ [(rx_callback receiver, p_rx_buffer (port2_isr receiver), length + 1)] /\
  load_bytes 0 (Z.to_nat (length + 1)) (p_rx_buffer (port2_isr receiver))
  = destination :: load_bytes 0 (Z.to_nat length) p_buffer.
Proof.
  intros Hlen Hfit Hcap Hempty Hflag Hst Hfifo Hcrc.
  destruct (cc2500_tx_packet_final p_buffer length destination sender Hlen)
    as (_ & _ & Htx & _); [lia|].
  rewrite Htx, Hempty in Hfifo. cbn [app] in Hfifo.
  set (payload := load_bytes 0 (Z.to_nat length) p_buffer) in *.
  assert (Hpl : List.length payload = Z.to_nat length)
    by apply length_load_bytes.
  change (destination :: payload ++ [rssi; lqi])
    with ((destination :: payload) ++ rssi :: lqi :: []) in Hfifo.
  destruct (receive_packet_accept (p_rx_buffer receiver)
              (to_u8 CC2500_BUFFER_LENGTH) receiver (length + 1)
              (destination :: payload) rssi lqi [] Hst Hfifo)
    as (r' & Hrecv & Htrace & _).
  { cbn [List.length]. lia. }
  { rewrite to_u8_small by lia. lia. }
  pose proof (receive_packet_frame (p_rx_buffer receiver)
                (to_u8 CC2500_BUFFER_LENGTH) receiver) as Hframe.
  rewrite Hrecv in Hframe. cbn [snd] in Hframe.
  destruct Hframe as (_ & _ & _ & _ & _ & _ & Hcb).
  rewrite land_CRC_OK, Hcrc in Hrecv. change (to_u8 CRC_OK) with 128 in Hrecv.
  destruct (port2_isr_delivery receiver r' _ _ _ Hflag Hrecv) as (-> & ->).
  change (128 =? 0) with false. cbv iota.
  rewrite Htrace, callbacks_app, Hcb. cbn [callbacks]. rewrite app_nil_r.
  split; [reflexivity|].
  replace (Z.to_nat (length + 1)) with (List.length (destination :: payload))
    by (cbn [List.length]; lia).
  rewrite load_bytes_below by lia. apply load_bytes_store_bytes.
Qed.

(** The largest frame [cc2500_tx_packet] builds inside its own buffer
    ([length + 2 = CC2500_BUFFER_LENGTH]) makes the receiving handler store
    one byte, the second status byte, past the end of [p_rx_buffer]; shorter
    frames are received inside it. *)
Theorem full_frame_overruns_receiver (p_buffer : region) (length destination : Z)
    (sender receiver : machine) (rssi lqi : Z) :
  0 <= length ->
  length + 2 <= CC2500_BUFFER_LENGTH ->
  CC2500_BUFFER_LENGTH <= 255 ->
  tx_fifo sender = [] ->
  Z.land (GDO0_PxIFG receiver) GDO0_PIN <> 0 ->
  Z.land (rxbytes receiver) NUM_RXBYTES <> 0 ->
  rx_fifo receiver
  = tx_fifo (final (cc2500_tx_packet p_buffer length destination sender))
    ++ [rssi; lqi] ->
  exists written,
    stores (p_rx_buffer (port2_isr receiver))
    = stores (p_rx_buffer receiver) ++ written /\
    written = seq 0 (Z.to_nat length + 3) /\
    (length + 2 = CC2500_BUFFER_LENGTH ->
       filter (past_end sizeof_p_rx_buffer) written = [sizeof_p_rx_buffer]) /\
    (length + 2 < CC2500_BUFFER_LENGTH ->
       filter (past_end sizeof_p_rx_buffer) written = []).
Proof.
  intros Hlen Hfit Hcap Hempty Hflag Hst Hfifo.
  destruct (cc2500_tx_packet_final p_buffer length destination sender Hlen)
    as (_ & _ & Htx & _); [lia|].
  rewrite Htx, Hempty in Hfifo. cbn [app] in Hfifo.
  destruct (receive_packet (p_rx_buffer receiver) (to_u8 CC2500_BUFFER_LENGTH)
              receiver) as [[[ret buf] len] r'] eqn:Hrecv.
  destruct (port2_isr_delivery receiver r' _ _ _ Hflag Hrecv) as (-> & _).
  exists (seq 0 (Z.to_nat length + 3)).
  split; [|split; [reflexivity|]].
  - change buf with (snd (fst (fst (ret, buf, len, r')))). rewrite <- Hrecv.
    rewrite (receive_packet_accept_stores _ _ _ (length + 1) _ Hst Hfifo).
    + do 2 f_equal. lia.
    + rewrite to_u8_small by lia. lia.
  - rewrite filter_past_end_seq. unfold sizeof_p_rx_buffer. split; intros Hl.
    + replace (Z.to_nat length + 3 - Z.to_nat CC2500_BUFFER_LENGTH)%nat
        with 1%nat by lia. reflexivity.
    + replace (Z.to_nat length + 3 - Z.to_nat CC2500_BUFFER_LENGTH)%nat
        with 0%nat by lia. reflexivity.
Qed.

(** After [setup_cc2500 f], whatever callback was registered before, a valid
    packet makes the handler call [f]. *)
Theorem setup_cc2500_registers (f : callback) (s0 : machine)
    (L : Z) (payload : list Z) (rssi lqi : Z) (rest : list Z) :
  let s := setup_cc2500 f s0 in
  0 <= CC2500_BUFFER_LENGTH < 256 ->
  Z.land (GDO0_PxIFG s) GDO0_PIN <> 0 ->
  Z.land (rxbytes s) NUM_RXBYTES <> 0 ->
  rx_fifo s = L :: payload ++ rssi :: lqi :: rest ->
  Z.of_nat (List.length payload) = L ->
  L <= CC2500_BUFFER_LENGTH ->
  Z.testbit lqi 7 = true ->
  callbacks (trace (port2_isr s))
  = callbacks (trace s0) ++ [(f, p_rx_buffer (port2_isr s), L)] /\
  strobes (trace s) = strobes (trace s0) ++ [SRX].
Proof.
  cbv zeta. intros Hcap Hflag Hst Hfifo Hlen Hle Hcrc.
  set (s := setup_cc2500 f s0) in *.
  assert (Hcb0 : rx_callback s = f) by reflexivity.
  assert (Hcbs : callbacks (trace s) = callbacks (trace s0)).
  { subst s. unfold setup_cc2500. cbn [strobe write_burst_register].
    machine_fields. rewrite !callbacks_app. cbn [callbacks].
    now rewrite !app_nil_r. }
  assert (Hstr : strobes (trace s) = strobes (trace s0) ++ [SRX]).
  { subst s. unfold setup_cc2500. cbn [strobe write_burst_register].
    machine_fields. rewrite !strobes_app. cbn [strobes].
    now rewrite !app_nil_r. }
  split; [|assumption].
  destruct (receive_packet_accept (p_rx_buffer s) (to_u8 CC2500_BUFFER_LENGTH)
              s L payload rssi lqi rest Hst Hfifo Hlen)
    as (s' & Hrecv & Htrace & _).
  { rewrite to_u8_small by assumption. assumption. }
  pose proof (receive_packet_frame (p_rx_buffer s) (to_u8 CC2500_BUFFER_LENGTH) s)
    as Hframe.
  rewrite Hrecv in Hframe. cbn [snd] in Hframe.
  destruct Hframe as (_ & _ & _ & _ & _ & _ & Hcb).
  rewrite land_CRC_OK, Hcrc in Hrecv. change (to_u8 CRC_OK) with 128 in Hrecv.
  destruct (port2_isr_delivery s s' _ _ _ Hflag Hrecv) as (-> & ->).
  change (128 =? 0) with false. cbv iota.
  rewrite Htrace, callbacks_app, Hcb, Hcb0, Hcbs. cbn [callbacks].
  now rewrite app_nil_r.
Qed.

End Composition.

(** ** Power control and device settings *)

Section PowerAndSettings.

Context {board : Board}.

(** Among the levels a [uint8_t] can hold, 18 is the only one for which
    [cc2500_set_power] reads outside the table; every other level writes one
    byte of the table to PATABLE: its own entry below 18, the last entry
    (0xFF) above. *)
Theorem cc2500_set_power_levels (power : Z) (s : machine) :
  0 <= power <= 255 ->
  (cc2500_set_power power s = None <-> power = 18) /\
  (power <> 18 ->
     exists v,
       cc2500_set_power power s = Some (write_burst_register PATABLE [v] s) /\
       In v power_table /\
       (power < 18 -> v = nth (Z.to_nat power) power_table 0) /\
       (18 < power -> v = 0xFF)).
Proof.
  intros Hp.
  destruct (Z.lt_trichotomy power 18) as [Hlt|[->|Hgt]].
  - rewrite cc2500_set_power_in_table by lia. split.
    + split; [discriminate | lia].
    + intros _. eexists. split; [reflexivity|]. split; [|split; [reflexivity | lia]].
      apply nth_In. cbn [List.length power_table]. lia.
  - split; [split; reflexivity | congruence].
  - rewrite cc2500_set_power_above by assumption. split.
    + split; [discriminate | lia].
    + intros _. exists 0xFF. split; [reflexivity|].
      split; [|split; [lia | reflexivity]].
      cbn. tauto.
Qed.

(** [setup_cc2500] programs PATABLE with 0xFB, a byte that is not in
    [power_table]: for every level a [uint8_t] can hold other than 18,
    [cc2500_set_power] writes one byte to PATABLE and that byte is not 0xFB.
    (At level 18 the byte is read outside the table and the code does not
    determine it.) *)
Theorem setup_cc2500_power (f : callback) (s0 : machine) :
  In (EvWriteBurst PATABLE [0xFB]) (trace (setup_cc2500 f s0)) /\
  ~ In 0xFB power_table /\
  forall power s,
    0 <= power <= 255 ->
    power <> 18 ->
    exists v s',
      cc2500_set_power power s = Some s' /\
      trace s' = trace s ++ [EvWriteBurst PATABLE [v]] /\
      In v power_table /\
      v <> 0xFB.
Proof.
  assert (Hnot : ~ In 0xFB power_table).
  { intros H. cbn in H.
    repeat (destruct H as [H|H]; [discriminate H|]). contradiction. }
  split; [|split; [exact Hnot|]].
  - unfold setup_cc2500. cbn [strobe write_burst_register]. machine_fields.
    apply in_or_app. left. apply in_or_app. right. now left.
  - intros power s Hp Hne.
    assert (Hv : exists v,
               cc2500_set_power power s
               = Some (write_burst_register PATABLE [v] s) /\
               In v power_table).
    { destruct (Z.lt_trichotomy power 18) as [Hlt|[Heq|Hgt]]; [|congruence|].
      - rewrite cc2500_set_power_in_table by lia.
        eexists. split; [reflexivity|].
        apply nth_In. cbn [List.length power_table]. lia.
      - rewrite cc2500_set_power_above by assumption.
        exists 0xFF. split; [reflexivity|]. cbn. tauto. }
    destruct Hv as (v & Hset & Hin).
    exists v, (write_burst_register PATABLE [v] s).
    split; [exact Hset|]. split; [reflexivity|]. split; [exact Hin|].
    intros ->. exact (Hnot Hin).
Qed.

Lemma chip_setting_app (r r' : setting_ref) (v : Z) (ws : list (setting_ref * Z)) :
  chip_setting r (ws ++ [(r', v)])
  = if setting_ref_eqb r r' then Some v else chip_setting r ws.
Proof.
  induction ws as [|[r0 v0] ws IH]; cbn [app chip_setting].
  - reflexivity.
  - rewrite IH. destruct (setting_ref_eqb r r'); [reflexivity|].
    destruct (chip_setting r ws); reflexivity.
Qed.

Lemma call_mirrored (st : settings_state) (c : setter_call) :
  mirrored st -> mirrored (call st c).
Proof.
  intros Hm r v. destruct c as [a|ch];
    cbn [call cc2500_set_address cc2500_set_channel write_register
         register_writes cc2500_settings deref addr channr];
    rewrite chip_setting_app; destruct r; cbn [setting_ref_eqb deref addr channr];
    intros H; try (injection H as <-; reflexivity);
    apply Hm in H; exact H.
Qed.

(** Through any sequence of calls of [cc2500_set_address] and
    [cc2500_set_channel], the chip keeps agreeing with the settings structure
    on every setting written: each setter pushes the value it has just stored,
    to its own register only. *)
Theorem setters_keep_chip_mirrored (calls : list setter_call) (st : settings_state) :
  mirrored st ->
  mirrored (fold_left call calls st) /\
  length (register_writes (fold_left call calls st))
  = (length (register_writes st) + length calls)%nat.
Proof.
  revert st. induction calls as [|c calls IH]; intros st Hm; cbn [fold_left].
  - split; [assumption|]. cbn [List.length]. lia.
  - destruct (IH (call st c) (call_mirrored st c Hm)) as (Hm' & Hlen).
    split; [assumption|]. rewrite Hlen.
    destruct c; cbn [call cc2500_set_address cc2500_set_channel write_register
                     register_writes]; rewrite length_app; cbn [List.length]; lia.
Qed.

(** The last call of each setter decides the setting: an address set, then
    any number of channel changes, is still the address the chip and the
    structure hold. *)
Theorem set_address_survives_channels (address : Z) (channels : list Z)
    (st : settings_state) :
  let st' := fold_left call (map SetChannel channels)
               (cc2500_set_address address st) in
  addr (cc2500_settings st') = address /\
  chip_setting ref_addr (register_writes st') = Some address.
Proof.
  cbv zeta.
  assert (H : forall st0,
             addr (cc2500_settings st0) = address ->
             chip_setting ref_addr (register_writes st0) = Some address ->
             addr (cc2500_settings (fold_left call (map SetChannel channels) st0))
             = address /\
             chip_setting ref_addr
               (register_writes (fold_left call (map SetChannel channels) st0))
             = Some address).
  { induction channels as [|ch channels IH]; intros st0 Ha Hc; cbn [map fold_left].
    - now split.
    - apply IH.
      + exact Ha.
      + cbn [call cc2500_set_channel write_register register_writes].
        rewrite chip_setting_app. exact Hc. }
  apply H.
  - reflexivity.
  - cbn [cc2500_set_address write_register register_writes].
    now rewrite chip_setting_app.
Qed.

End PowerAndSettings.

(** ** The further properties at concrete inputs *)

(** A 3-byte packet followed by the length byte of the next one. *)
Lemma receive_packet_consumes_witness :
  let s := packet_pending [3; 7; 8; 9; 0x2A; 0x80; 5] in
  rx_fifo (snd (receive_packet (board := board64) (region_of_list []) 64 s)) = [5] /\
  trace (snd (receive_packet (board := board64) (region_of_list []) 64 s))
  = [EvReadStatus RXBYTES; EvReadBurst FIFO 1; EvReadBurst FIFO 3;
     EvReadBurst FIFO 2].
Proof.
  cbv zeta.
  destruct (receive_packet_consumes (board := board64) (region_of_list []) 64
              (packet_pending [3; 7; 8; 9; 0x2A; 0x80; 5]) 3 [7; 8; 9] 0x2A 0x80 [5])
    as (Haccept & _).
  - vm_compute. discriminate.
  - reflexivity.
  - reflexivity.
  - apply Haccept. lia.
Defined.

(** A 3-byte packet, then a 5-byte one, received with the length variable
    left at 3. *)
Lemma receive_packet_stale_length_witness :
  let s := packet_pending [3; 7; 8; 9; 0x2A; 0x80; 5; 1; 2; 3; 4; 5; 0x2A; 0x80] in
  let r := receive_packet (board := board64) (region_of_list []) 64 s in
  snd (fst r) = 3 /\
  exists s2,
    receive_packet (board := board64) (snd (fst (fst r))) (snd (fst r)) (snd r)
    = (0, snd (fst (fst r)), 5, s2) /\
    strobes (trace s2) = strobes (trace (snd r)) ++ [SFRX].
Proof.
  cbv zeta.
  apply (receive_packet_stale_length (board := board64) (region_of_list []) 64
           (packet_pending [3; 7; 8; 9; 0x2A; 0x80; 5; 1; 2; 3; 4; 5; 0x2A; 0x80])
           3 [7; 8; 9] 0x2A 0x80 5 [1; 2; 3; 4; 5; 0x2A; 0x80]
           (fst (fst (fst (receive_packet (board := board64) (region_of_list []) 64
              (packet_pending [3; 7; 8; 9; 0x2A; 0x80; 5; 1; 2; 3; 4; 5; 0x2A; 0x80])))))).
  - vm_compute. discriminate.
  - reflexivity.
  - reflexivity.
  - lia.
  - reflexivity.
  - vm_compute. discriminate.
  - lia.
Defined.

(** Flags of pins 0 and 6 pending, GDO0 on pin 6, and a 3-byte packet whose
    CRC bit is clear in the FIFO. *)
Lemma port2_isr_clears_only_gdo0_witness :
  let s := mkMachine 0x40 0x41 [] 6 [3; 7; 8; 9; 0x2A; 0x7F] []
                     (region_of_list []) (region_of_list []) dummy_callback [] in
  stores (p_rx_buffer (port2_isr (board := board64) s)) = [0; 1; 2; 3; 4]%nat /\
  GDO0_PxIFG (port2_isr (board := board64) s) = 0x01 /\
  GDO0_PxIE (port2_isr (board := board64) s) = 0x40 /\
  p_tx_buffer (port2_isr (board := board64) s) = region_of_list [] /\
  rx_callback (port2_isr (board := board64) s) = dummy_callback.
Proof.
  cbv zeta. split; [reflexivity|].
  destruct (port2_isr_clears_only_gdo0 (board := board64)
              (mkMachine 0x40 0x41 [] 6 [3; 7; 8; 9; 0x2A; 0x7F] []
                         (region_of_list []) (region_of_list [])
                         dummy_callback []))
    as (Hifg & _ & Hie & _ & Hptx & Hcb).
  - cbn. lia.
  - reflexivity.
  - intros written Hw. vm_compute in Hw. subst written. reflexivity.
  - repeat split; assumption.
Defined.

(** Packets of 14, 15 and 16 bytes on the board with 16-byte buffers. *)
Lemma port2_isr_stores_past_end_witness :
  (exists written,
     stores (p_rx_buffer (port2_isr (board := board16)
                            (packet_pending (14 :: repeat 0xAA 16))))
     = [] ++ written /\
     filter (past_end 16) written = [] /\
     (14 + 2 <= 16 -> filter (past_end 16) written = [])) /\
  (exists written,
     stores (p_rx_buffer (port2_isr (board := board16)
                            (packet_pending (16 :: repeat 0xAA 18))))
     = [] ++ written /\
     filter (past_end 16) written = [16; 17]%nat /\
     (16 + 2 <= 16 -> filter (past_end 16) written = [])).
Proof.
  split.
  - apply (port2_isr_stores_past_end (board := board16)
             (packet_pending (14 :: repeat 0xAA 16)) 14 (repeat 0xAA 16)).
    + vm_compute. discriminate.
    + vm_compute. discriminate.
    + reflexivity.
    + cbn. lia.
    + cbn. lia.
  - apply (port2_isr_stores_past_end (board := board16)
             (packet_pending (16 :: repeat 0xAA 18)) 16 (repeat 0xAA 18)).
    + vm_compute. discriminate.
    + vm_compute. discriminate.
    + reflexivity.
    + cbn. lia.
    + cbn. lia.
Defined.

(** The line stays low for the three samples read. *)
Lemma cc2500_tx_stuck_witness :
  exists s',
    cc2500_tx (board := board64) (region_of_list [0x11; 0x22]) 2
              (before_tx [0; 0; 0]) = Hangs s' /\
    trace s' = [EvStoreIE 0; EvWriteBurst FIFO [0x11; 0x22]; EvStrobe STX;
                EvLoadIN 0; EvLoadIN 0; EvLoadIN 0] /\
    Z.land (GDO0_PxIE s') 0x40 = 0 /\
    GDO0_PxIFG s' = 0 /\
    tx_fifo s' = [0x11; 0x22].
Proof.
  apply (cc2500_tx_stuck (board := board64) (region_of_list [0x11; 0x22]) 2
           (before_tx [0; 0; 0])).
  left. repeat constructor.
Defined.

(** A transmission entered with the GDO0 interrupt disabled and the flags of
    pins 0 and 6 pending. *)
Lemma cc2500_tx_registers_witness :
  exists s',
    cc2500_tx (board := board64) (region_of_list [0x11; 0x22]) 2
              (mkMachine 0x02 0x41 [0; 0x40; 0x40; 0; 0x40] 0 [] []
                         (region_of_list []) (region_of_list []) dummy_callback [])
    = Returns s' /\
    GDO0_PxIE s' = 0x42 /\
    GDO0_PxIFG s' = 0x01 /\
    GDO0_PxIN s' = [0x40].
Proof.
  apply (cc2500_tx_registers (board := board64) (region_of_list [0x11; 0x22]) 2
           (mkMachine 0x02 0x41 [0; 0x40; 0x40; 0; 0x40] 0 [] []
                      (region_of_list []) (region_of_list []) dummy_callback [])
           [0] 0x40 [0x40] 0 [0x40]).
  - cbn. lia.
  - cbn. lia.
  - cbn. lia.
  - reflexivity.
  - repeat constructor.
  - vm_compute. discriminate.
  - constructor; [vm_compute; discriminate | constructor].
  - reflexivity.
Defined.

(** A send of 01 02 03 to 05 while a received packet waits in the receive
    buffer's FIFO. *)
Lemma cc2500_tx_packet_leaves_receive_side_witness :
  let s := mkMachine 0x40 0 [0; 0x40; 0x40; 0] 6 [3; 7; 8; 9; 0x2A; 0x80] []
                     (region_of_list [7; 7]) (region_of_list []) dummy_callback [] in
  let s' := final (cc2500_tx_packet (board := board64) (region_of_list [1; 2; 3])
                     3 5 s) in
  rx_fifo s' = [3; 7; 8; 9; 0x2A; 0x80] /\
  p_rx_buffer s' = region_of_list [7; 7] /\
  rx_callback s' = dummy_callback /\
  callbacks (trace s') = [] /\
  strobes (trace s') = [STX] /\
  exists written,
    stores (p_tx_buffer s') = [] ++ written /\
    filter (past_end 64) written = [].
Proof.
  cbv zeta.
  apply (cc2500_tx_packet_leaves_receive_side (board := board64)
           (region_of_list [1; 2; 3]) 3 5
           (mkMachine 0x40 0 [0; 0x40; 0x40; 0] 6 [3; 7; 8; 9; 0x2A; 0x80] []
                      (region_of_list [7; 7]) (region_of_list [])
                      dummy_callback [])).
  - lia.
  - cbn. lia.
Defined.

(** Two sends: 01 02 03 to 05, then AA to 06. *)
Lemma cc2500_tx_packet_twice_witness :
  exists s1 s2,
    cc2500_tx_packet (board := board64) (region_of_list [1; 2; 3]) 3 5
                     (before_tx [0; 0x40; 0; 0x40; 0x40; 0])
    = Returns s1 /\
    (s1 <- cc2500_tx_packet (board := board64) (region_of_list [1; 2; 3]) 3 5
             (before_tx [0; 0x40; 0; 0x40; 0x40; 0]) ;;
     cc2500_tx_packet (board := board64) (region_of_list [0xAA]) 1 6 s1)
    = Returns s2 /\
    tx_fifo s2 = [4; 5; 1; 2; 3; 2; 6; 0xAA] /\
    GDO0_PxIN s2 = [].
Proof.
  destruct (cc2500_tx_packet_twice (board := board64)
              (region_of_list [1; 2; 3]) 3 5 (region_of_list [0xAA]) 1 6
              (before_tx [0; 0x40; 0; 0x40; 0x40; 0])
              [0] 0x40 [] 0 [] 0x40 [0x40] 0 [])
    as (s1 & s2 & H1 & H2 & Hfifo & _ & _ & Hin).
  - lia.
  - lia.
  - lia.
  - lia.
  - reflexivity.
  - repeat constructor.
  - vm_compute. discriminate.
  - constructor.
  - reflexivity.
  - constructor.
  - vm_compute. discriminate.
  - constructor; [vm_compute; discriminate | constructor].
  - reflexivity.
  - exists s1, s2. repeat split; assumption.
Defined.

(** The frame 04 05 01 02 03 delivered by the handler. *)
Lemma send_then_interrupt_witness :
  let receiver := packet_pending [4; 5; 1; 2; 3; 0x2A; 0x80] in
  callbacks (trace (port2_isr (board := board64) receiver))
  = [(dummy_callback, p_rx_buffer (port2_isr (board := board64) receiver), 4)] /\
  load_bytes 0 4 (p_rx_buffer (port2_isr (board := board64) receiver))
  = [5; 1; 2; 3].
Proof.
  cbv zeta.
  apply (send_then_interrupt (board := board64) (region_of_list [1; 2; 3]) 3 5
           (before_tx [0; 0x40; 0x40; 0])
           (packet_pending [4; 5; 1; 2; 3; 0x2A; 0x80]) 0x2A 0x80).
  - lia.
  - cbn. lia.
  - cbn. lia.
  - reflexivity.
  - vm_compute. discriminate.
  - vm_compute. discriminate.
  - reflexivity.
  - reflexivity.
Defined.

(** A 14-byte payload fills the 16-byte transmit buffer. *)
Lemma full_frame_overruns_receiver_witness :
  exists written,
    stores (p_rx_buffer (port2_isr (board := board16)
              (packet_pending (15 :: 5 :: repeat 0xAA 14 ++ [0x2A; 0x80]))))
    = [] ++ written /\
    written = seq 0 17 /\
    filter (past_end 16) written = [16%nat].
Proof.
  destruct (full_frame_overruns_receiver (board := board16)
              (region_of_list (repeat 0xAA 14)) 14 5
              (before_tx [0; 0x40; 0x40; 0])
              (packet_pending (15 :: 5 :: repeat 0xAA 14 ++ [0x2A; 0x80]))
              0x2A 0x80)
    as (written & Hst & Hw & Hfull & _).
  - lia.
  - cbn. lia.
  - cbn. lia.
  - reflexivity.
  - vm_compute. discriminate.
  - vm_compute. discriminate.
  - reflexivity.
  - exists written. split; [exact Hst|]. split; [exact Hw|].
    apply Hfull. reflexivity.
Defined.

(** A callback that answers the length it is given, registered over the
    default one. *)
Lemma setup_cc2500_registers_witness :
  let f : callback := fun _ n => n in
  let s := setup_cc2500 f (packet_pending [3; 7; 8; 9; 0x2A; 0x80]) in
  callbacks (trace (port2_isr (board := board64) s))
  = [(f, p_rx_buffer (port2_isr (board := board64) s), 3)] /\
  strobes (trace s) = [SRX].
Proof.
  cbv zeta.
  apply (setup_cc2500_registers (board := board64) (fun _ n => n)
           (packet_pending [3; 7; 8; 9; 0x2A; 0x80]) 3 [7; 8; 9] 0x2A 0x80 []).
  - cbn. lia.
  - vm_compute. discriminate.
  - vm_compute. discriminate.
  - reflexivity.
  - reflexivity.
  - cbn. lia.
  - reflexivity.
Defined.

(** Levels 18 and 19. *)
Lemma cc2500_set_power_levels_witness :
  (cc2500_set_power 18 at_rest = None <-> 18 = 18) /\
  (exists v,
     cc2500_set_power 19 at_rest
     = Some (write_burst_register PATABLE [v] at_rest) /\
     In v power_table /\
     (19 < 18 -> v = nth (Z.to_nat 19) power_table 0) /\
     (18 < 19 -> v = 0xFF)).
Proof.
  split.
  - apply (cc2500_set_power_levels 18 at_rest). lia.
  - apply (cc2500_set_power_levels 19 at_rest); [lia | discriminate].
Defined.

(** Level 17 after the setup: the byte written is the table's, not 0xFB. *)
Lemma setup_cc2500_power_witness :
  exists v s',
    cc2500_set_power 17 (setup_cc2500 dummy_callback at_rest) = Some s' /\
    trace s'
    = trace (setup_cc2500 dummy_callback at_rest) ++ [EvWriteBurst PATABLE [v]] /\
    In v power_table /\
    v <> 0xFB.
Proof.
  apply (proj2 (proj2 (setup_cc2500_power dummy_callback at_rest)) 17
           (setup_cc2500 dummy_callback at_rest)).
  - lia.
  - discriminate.
Defined.

(** Address, channel, address again, from settings never written. *)
Lemma setters_keep_chip_mirrored_witness :
  let st0 := mkSettingsState (mkSettings 0 0) [] in
  let st := fold_left call [SetAddress 0x12; SetChannel 3; SetAddress 0x34] st0 in
  mirrored st /\ length (register_writes st) = 3%nat.
Proof.
  cbv zeta.
  apply (setters_keep_chip_mirrored
           [SetAddress 0x12; SetChannel 3; SetAddress 0x34]
           (mkSettingsState (mkSettings 0 0) [])).
  intros r v H. discriminate H.
Defined.
